(** * helm-chart/build.py: the release script of the binderhub chart

    A shallow embedding of [helm-chart/build.py] and the properties its
    specification states about it.

    Conventions of the embedding.
    - A Python [str] is the list of its code points ([str := list N]); a
      [bytes] object is a [list byte].  [py "..."] writes a literal.
    - The external tools (git, docker, helm) are opaque: a [world] answers
      every command line with a return code and the bytes of its standard
      output, and answers the same command the same way during a run.
      [subprocess.check_call] and [subprocess.check_output] raise
      [CalledProcessError] on a non-zero return code.
    - The file system is a finite map from paths to files.  A file is
      known by the document [yaml.load] reads from it ([Parsed]), or by the
      document [yaml.dump] wrote to it ([Dumped]), or it is no YAML at all
      ([Malformed]).  What [yaml.load] makes of a file that [yaml.dump]
      wrote is ruamel's business (the script sets [yaml.indent(offset=2)]
      and nothing else): it is the [reread] of the [world], as opaque as
      the tools, and need not be the document that was written.  YAML
      anchors are not modelled.
    - A function of the script is a computation [M A]: from the files it
      finds to a result or an exception, the files it leaves and the trace
      of commands run and lines printed, in order.  An exception aborts the
      script and keeps the effects that came before it.
    - [update_mybinder_deployment] is never called ([main] has the call
      commented out) and is left out. *)

From Stdlib Require Import ZArith NArith List Strings.String Strings.Ascii Strings.Byte Bool Lia.
From stdpp Require Import base option list countable gmap fin_maps.
Import ListNotations.

Local Open Scope N_scope.
Local Open Scope list_scope.

(** ** Strings *)

Definition str := list N.

Definition py (s : string) : str :=
  List.map N_of_ascii (list_ascii_of_string s).

Definition bytes_of (s : string) : list byte := list_byte_of_string s.

(** *** bytes.decode('utf-8'), strict *)

Definition utf8_cont (b : N) : bool := (128 <=? b) && (b <=? 191).

Fixpoint utf8_decode (bs : list N) : option str :=
  match bs with
  | [] => Some []
  | b0 :: r0 =>
    if b0 <? 128 then cons b0 <$> utf8_decode r0
    else if (194 <=? b0) && (b0 <=? 223) then
      match r0 with
      | b1 :: r1 =>
        if utf8_cont b1
        then cons ((b0 - 192) * 64 + (b1 - 128)) <$> utf8_decode r1
        else None
      | _ => None
      end
    else if (224 <=? b0) && (b0 <=? 239) then
      match r0 with
      | b1 :: b2 :: r2 =>
        let cp := (b0 - 224) * 4096 + (b1 - 128) * 64 + (b2 - 128) in
        if utf8_cont b1 && utf8_cont b2 && (2048 <=? cp)
           && negb ((55296 <=? cp) && (cp <=? 57343))
        then cons cp <$> utf8_decode r2
        else None
      | _ => None
      end
    else if (240 <=? b0) && (b0 <=? 244) then
      match r0 with
      | b1 :: b2 :: b3 :: r3 =>
        let cp := (b0 - 240) * 262144 + (b1 - 128) * 4096
                  + (b2 - 128) * 64 + (b3 - 128) in
        if utf8_cont b1 && utf8_cont b2 && utf8_cont b3
           && (65536 <=? cp) && (cp <=? 1114111)
        then cons cp <$> utf8_decode r3
        else None
      | _ => None
      end
    else None
  end.

Definition decode (b : list byte) : option str :=
  utf8_decode (List.map Byte.to_N b).

(** *** str.strip() *)

(** The code points Python's [str.isspace] accepts. *)
Definition isspace (c : N) : bool :=
  ((9 <=? c) && (c <=? 13)) || ((28 <=? c) && (c <=? 32))
  || (c =? 133) || (c =? 160) || (c =? 5760)
  || ((8192 <=? c) && (c <=? 8202))
  || (c =? 8232) || (c =? 8233) || (c =? 8239) || (c =? 8287)
  || (c =? 12288).

Fixpoint lstrip (s : str) : str :=
  match s with
  | c :: s' => if isspace c then lstrip s' else s
  | [] => []
  end.

Definition rstrip (s : str) : str := rev (lstrip (rev s)).

Definition strip (s : str) : str := rstrip (lstrip s).

(** *** str.split(sep), for a separator of one character *)

Fixpoint split (sep : N) (s : str) : list str :=
  match s with
  | [] => [[]]
  | c :: s' =>
    if c =? sep then [] :: split sep s'
    else match split sep s' with
         | p :: ps => (c :: p) :: ps
         | [] => [[c]]
         end
  end.

(** *** os.path (posixpath) *)

Definition SEP : N := 47.

Definition startswith_sep (p : str) : bool :=
  match p with c :: _ => c =? SEP | [] => false end.

Definition endswith_sep (p : str) : bool := startswith_sep (rev p).

Definition join2 (a b : str) : str :=
  if startswith_sep b then b
  else match a with
       | [] => b
       | _ => if endswith_sep a then a ++ b else a ++ [SEP] ++ b
       end.

Definition join (a : str) (ps : list str) : str := fold_left join2 ps a.

Fixpoint drop_until_sep (r : str) : str :=
  match r with
  | c :: r' => if c =? SEP then r else drop_until_sep r'
  | [] => []
  end.

Fixpoint drop_seps (r : str) : str :=
  match r with
  | c :: r' => if c =? SEP then drop_seps r' else r
  | [] => []
  end.

(** [head = p[:p.rfind('/') + 1]], then the trailing slashes are stripped
    unless [head] is made of slashes only. *)
Definition dirname (p : str) : str :=
  let rhead := drop_until_sep (rev p) in
  match drop_seps rhead with
  | [] => rev rhead
  | r => rev r
  end.

(** ** YAML documents *)

Set Warnings "-register-all".

(** What [yaml.load] returns.  A mapping keeps the order of its keys, as
    ruamel's round-trip loader does. *)
Inductive yaml : Type :=
| YNull
| YBool (b : bool)
| YInt (n : Z)
| YStr (s : str)
| YSeq (l : list yaml)
| YMap (m : list (str * yaml)).

Fixpoint assoc_get (k : str) (m : list (str * yaml)) : option yaml :=
  match m with
  | [] => None
  | (k', v) :: m' => if decide (k = k') then Some v else assoc_get k m'
  end.

(** [m[k] = v]: an existing key keeps its place, a new key goes last. *)
Fixpoint assoc_set (k : str) (v : yaml) (m : list (str * yaml))
  : list (str * yaml) :=
  match m with
  | [] => [(k, v)]
  | (k', v') :: m' =>
    if decide (k = k') then (k', v) :: m' else (k', v') :: assoc_set k v m'
  end.

(** ** Exceptions, commands and the external world *)

Record command : Type := Command {
  argv : list str;
  cwd : option str;              (* the cwd= argument *)
  git_ssh_command : option str   (* env=dict(os.environ, GIT_SSH_COMMAND=...) *)
}.

Definition cmd (args : list str) : command := Command args None None.

Inductive exn : Type :=
| CalledProcessError (c : command) (rc : Z)
| UnicodeDecodeError
| FileNotFoundError (path : str)
| KeyError (k : str)
| IndexError
| TypeError
| AttributeError
| ParserError.

Record completed : Type := Completed {
  returncode : Z;
  stdout : list byte
}.

(** The tools, and ruamel: [w c] is what running [c] gives, [reread w doc]
    what [yaml.load] gives on a file that [yaml.dump(doc, f)] wrote. *)
Record world : Type := World {
  run :> command -> completed;
  reread : yaml -> exn + yaml
}.

(** ** Files *)

Inductive file : Type :=
| Parsed (doc : yaml)
| Dumped (doc : yaml)
| Malformed.

(** [yaml.load(f)] *)
Definition read (w : world) (f : file) : exn + yaml :=
  match f with
  | Parsed doc => inr doc
  | Dumped doc => reread w doc
  | Malformed => inl ParserError
  end.

Inductive event : Type :=
| Run (c : command)
| Print (line : str).

(** ** The monad of the script *)

Record outcome (A : Type) : Type := Outcome {
  result : exn + A;
  files : gmap str file;
  trace : list event
}.
Arguments Outcome {A} _ _ _.
Arguments result {A} _.
Arguments files {A} _.
Arguments trace {A} _.

Definition M (A : Type) : Type := gmap str file -> outcome A.

Definition ret {A} (a : A) : M A := fun fs => Outcome (inr a) fs [].

Definition raise {A} (e : exn) : M A := fun fs => Outcome (inl e) fs [].

Definition bind {A B} (m : M A) (f : A -> M B) : M B := fun fs =>
  let o := m fs in
  match result o with
  | inl e => Outcome (inl e) (files o) (trace o)
  | inr a =>
    let o' := f a (files o) in
    Outcome (result o') (files o') (trace o ++ trace o')
  end.

Notation "x <- m ;; k" := (bind m (fun x => k))
  (at level 100, m at next level, right associativity).
Notation "m ;;; k" := (bind m (fun _ => k))
  (at level 100, right associativity).

Definition lift {A} (r : exn + A) : M A :=
  match r with inl e => raise e | inr a => ret a end.

Definition emit (e : event) : M unit := fun fs => Outcome (inr tt) fs [e].

(** [print(line)] *)
Definition print (line : str) : M unit := emit (Print line).

(** [with open(path) as f: yaml.load(f)] *)
Definition load (w : world) (path : str) : M yaml := fun fs =>
  match fs !! path with
  | Some f => Outcome (read w f) fs []
  | None => Outcome (inl (FileNotFoundError path)) fs []
  end.

(** [with open(path, 'w') as f: yaml.dump(doc, f)] *)
Definition dump (doc : yaml) (path : str) : M unit := fun fs =>
  Outcome (inr tt) (<[path := Dumped doc]> fs) [].

(** ** Python object operations on loaded documents *)

(** [o[k]] *)
Definition getitem (o : yaml) (k : str) : exn + yaml :=
  match o with
  | YMap m =>
    match assoc_get k m with
    | Some v => inr v
    | None => inl (KeyError k)
    end
  | _ => inl TypeError
  end.

(** [o[k] = v] *)
Definition setitem (o : yaml) (k : str) (v : yaml) : exn + yaml :=
  match o with
  | YMap m => inr (YMap (assoc_set k v m))
  | _ => inl TypeError
  end.

(** [o.split(sep)]: only a string has the method. *)
Definition method_split (o : yaml) (sep : N) : exn + list str :=
  match o with
  | YStr s => inr (split sep s)
  | _ => inl AttributeError
  end.

(** [l[0]] *)
Definition index0 (l : list str) : exn + str :=
  match l with
  | x :: _ => inr x
  | [] => inl IndexError
  end.

(** [paths] is a string or a list of strings ([isinstance(paths, str)]). *)
Inductive paths_arg : Type :=
| OnePath (p : str)
| Paths (ps : list str).

Definition as_list (paths : paths_arg) : list str :=
  match paths with
  | OnePath p => [p]
  | Paths ps => ps
  end.

(** ** The script *)

Record args : Type := Args {
  image_prefix : str;           (* --image-prefix, default 'jupyterhub/k8s-' *)
  action : option str;          (* the subcommand, None when absent *)
  commit_range : option str;    (* --commit-range, None when absent *)
  push : bool                   (* --push *)
}.

Section Script.

(** [os.path.abspath(os.path.dirname(__file__))], the directory of the
    script, and the tools the script finds. *)
Variable BASEPATH : str.
Variable w : world.

Definition CHARTPATH : str := join BASEPATH [py "binderhub"].
Definition ROOTPATH : str := dirname BASEPATH.
Definition NAME : str := py "binderhub".
Definition PYPKGPATH : str := join ROOTPATH [NAME].
Definition SETUP_PY : str := join ROOTPATH [py "setup.py"].

Definition IMAGE_PATH : str := join BASEPATH [py "images"; NAME].
Definition IMAGE_FILES : list str := [SETUP_PY; PYPKGPATH; IMAGE_PATH].

Definition CHART_FILES : list str := IMAGE_FILES ++ [CHARTPATH].

Definition HELM_CHART_DEPLOY_KEY_NAME : str := py "travis".

(** [subprocess.check_call(argv, ...)] *)
Definition check_call (c : command) : M unit :=
  emit (Run c) ;;;
  if decide (returncode (w c) = 0%Z) then ret tt
  else raise (CalledProcessError c (returncode (w c))).

(** [subprocess.check_output(argv)] *)
Definition check_output (c : command) : M (list byte) :=
  emit (Run c) ;;;
  if decide (returncode (w c) = 0%Z) then ret (stdout (w c))
  else raise (CalledProcessError c (returncode (w c))).

(** [b.decode('utf-8')] *)
Definition decode_utf8 (b : list byte) : M str :=
  match decode b with
  | Some s => ret s
  | None => raise UnicodeDecodeError
  end.

Definition git_log_argv (paths : list str) : list str :=
  [py "git"; py "log"; py "-n"; py "1"; py "--pretty=format:%h"; py "--"]
  ++ paths.

Definition last_git_modified (paths : paths_arg) : M str :=
  out <- check_output (cmd (git_log_argv (as_list paths))) ;;
  decode_utf8 out.

Definition git_diff_argv (paths : list str) (range : str) : list str :=
  [py "git"; py "diff"; py "--name-only"; range; py "--"] ++ paths.

Definition path_changed (paths : paths_arg) (range : str) : M bool :=
  out <- check_output (cmd (git_diff_argv (as_list paths) range)) ;;
  s <- decode_utf8 out ;;
  ret (negb (bool_decide (strip s = []))).

Definition docker_build_argv (image_spec tag image_path : str) : list str :=
  [py "docker"; py "build"; py "-t"; image_spec;
   py "--build-arg"; py "BINDERHUB_VERSION=" ++ tag;
   image_path].

Definition docker_push_argv (image_spec : str) : list str :=
  [py "docker"; py "push"; image_spec].

Definition skip_message (image range : str) : str :=
  py "Skipping " ++ image ++ py ", not touched in " ++ range.

(** The body of the loop of [build_images]; [skip] is its [continue]. *)
Definition build_image (prefix : str) (range : option str) (push : bool)
    (image : str) : M unit :=
  let image_path := join BASEPATH [py "images"; image] in
  skip <- match range with
          | Some ((_ :: _) as r) =>       (* if commit_range: *)
            changed <- path_changed (Paths IMAGE_FILES) r ;;
            if negb changed
            then print (skip_message image r) ;;; ret true
            else ret false
          | _ => ret false
          end ;;
  if skip : bool then ret tt else
  tag <- last_git_modified (Paths IMAGE_FILES) ;;
  let image_spec := prefix ++ image ++ py ":" ++ tag in
  check_call (cmd (docker_build_argv image_spec tag image_path)) ;;;
  if push then check_call (cmd (docker_push_argv image_spec)) else ret tt.

Fixpoint build_images (prefix : str) (images : list str)
    (range : option str) (push : bool) : M unit :=
  match images with
  | [] => ret tt
  | image :: rest =>
    build_image prefix range push image ;;;
    build_images prefix rest range push
  end.

(** [o[k1][k2] = v], on the object [o] itself. *)
Definition setitem2 (o : yaml) (k1 k2 : str) (v : yaml) : exn + yaml :=
  match getitem o k1 with
  | inl e => inl e
  | inr inner =>
    match setitem inner k2 v with
    | inl e => inl e
    | inr inner' => setitem o k1 inner'
    end
  end.

Definition values_yaml : str := join CHARTPATH [py "values.yaml"].
Definition chart_yaml : str := join CHARTPATH [py "Chart.yaml"].

Definition build_values (prefix : str) : M unit :=
  values <- load w values_yaml ;;
  values <- lift (setitem2 values (py "image") (py "name")
                    (YStr (prefix ++ NAME))) ;;
  tag <- last_git_modified (Paths IMAGE_FILES) ;;
  values <- lift (setitem2 values (py "image") (py "tag") (YStr tag)) ;;
  dump values values_yaml.

Definition build_chart : M yaml :=
  version <- last_git_modified (Paths ([BASEPATH] ++ IMAGE_FILES)) ;;
  chart <- load w chart_yaml ;;
  raw_version <- lift (getitem chart (py "version")) ;;
  old <- lift (getitem chart (py "version")) ;;
  parts <- lift (method_split old 45) ;;
  first <- lift (index0 parts) ;;
  chart <- lift (setitem chart (py "version")
                   (YStr (first ++ py "-" ++ version))) ;;
  dump chart chart_yaml ;;;
  ret raw_version.

Definition gh_pages : str := py "gh-pages".

Definition publish_commands (version : str) : list command :=
  [ Command [py "git"; py "clone"; py "--no-checkout";
             py "git@github.com:jupyterhub/helm-chart"; gh_pages]
      None (Some (py "ssh -i " ++ HELM_CHART_DEPLOY_KEY_NAME));
    Command [py "git"; py "checkout"; gh_pages] (Some gh_pages) None;
    cmd [py "helm"; py "repo"; py "add"; py "jupyterhub";
         py "https://jupyterhub.github.io/helm-chart/"];
    cmd [py "helm"; py "repo"; py "update"];
    cmd [py "helm"; py "package"; py "--dependency-update"; CHARTPATH;
         py "--destination"; py "gh-pages/"];
    Command [py "helm"; py "repo"; py "index"; py ".";
             py "--url"; py "https://jupyterhub.github.io/helm-chart"]
      (Some gh_pages) None;
    Command [py "git"; py "add"; py "."] (Some gh_pages) None;
    Command [py "git"; py "commit"; py "-m";
             py "[binderhub] Automatic update for commit " ++ version]
      (Some gh_pages) None;
    Command [py "git"; py "push"; py "origin"; gh_pages]
      (Some gh_pages) (Some (py "ssh -i ../" ++ HELM_CHART_DEPLOY_KEY_NAME)) ].

Fixpoint check_calls (cs : list command) : M unit :=
  match cs with
  | [] => ret tt
  | c :: cs' => check_call c ;;; check_calls cs'
  end.

Definition publish_pages : M unit :=
  version <- last_git_modified (OnePath (py ".")) ;;
  check_calls (publish_commands version).

(** [main], after [argparse] has read the command line. *)
Definition main (a : args) : M unit :=
  let images := [py "binderhub"] in
  if decide (action a = Some (py "build")) then
    build_images (image_prefix a) images (commit_range a) (push a) ;;;
    build_values (image_prefix a) ;;;
    chart_version <- build_chart ;;
    if push a then publish_pages else ret tt
  else ret tt.

End Script.

(** ** What the tools answer *)

(** [git log -n 1 --pretty=format:%h -- paths] exits with 0 and prints [v]. *)
Definition log_answers (w : world) (paths : list str) (v : str) : Prop :=
  returncode (w (cmd (git_log_argv paths))) = 0%Z
  /\ decode (stdout (w (cmd (git_log_argv paths)))) = Some v.

(** [git diff --name-only range -- paths] exits with 0 and prints [s]. *)
Definition diff_answers (w : world) (paths : list str) (range s : str)
  : Prop :=
  returncode (w (cmd (git_diff_argv paths range))) = 0%Z
  /\ decode (stdout (w (cmd (git_diff_argv paths range)))) = Some s.

(** [yaml.load] of the file at [path] gives [doc]. *)
Definition reads (w : world) (fs : gmap str file) (path : str) (doc : yaml)
  : Prop :=
  exists f, fs !! path = Some f /\ read w f = inr doc.

(** The specification's [versionPrefix]: what stands before the first
    occurrence of [c], the whole string when there is none. *)
Fixpoint before_first (c : N) (s : str) : str :=
  match s with
  | [] => []
  | x :: s' => if x =? c then [] else x :: before_first c s'
  end.

(** Lines 58 to 69: the rest of an iteration of [build_images] that was
    not skipped. *)
Definition build_and_push (B : str) (w : world) (prefix : str) (push : bool)
    (image : str) : M unit :=
  tag <- last_git_modified w (Paths (IMAGE_FILES B)) ;;
  check_call w
    (cmd (docker_build_argv (prefix ++ image ++ py ":" ++ tag) tag
            (join B [py "images"; image]))) ;;;
  if push
  then check_call w (cmd (docker_push_argv (prefix ++ image ++ py ":" ++ tag)))
  else ret tt.

(** What the skip test of [build_images] runs before anything else. *)
Definition consulted (B : str) (range : option str) : list event :=
  match range with
  | Some ((_ :: _) as r) => [Run (cmd (git_diff_argv (IMAGE_FILES B) r))]
  | _ => []
  end.

(** The skip test lets the build through: there is no range (or an empty
    one), or [git diff] printed something else than white space. *)
Definition not_skipped (B : str) (w : world) (range : option str) : Prop :=
  match range with
  | Some ((_ :: _) as r) =>
    exists s, diff_answers w (IMAGE_FILES B) r s /\ strip s <> []
  | _ => True
  end.

(** ** A checkout to run the script on

    The script lies in [/repo/helm-chart].  The last commit on the image
    files is [abc1234], the last one on the paths [build_chart] asks about
    is [def456], and nothing the image is made of changed in
    [HEAD~1..HEAD]. *)

Fixpoint answer (table : list (list str * completed)) (dflt : completed)
    (c : command) : completed :=
  match table with
  | [] => dflt
  | (a, r) :: table' =>
    if decide (argv c = a) then r else answer table' dflt c
  end.

Definition B0 : str := py "/repo/helm-chart".

(** A library that reads back every document as it was written. *)
Definition as_written (doc : yaml) : exn + yaml := inr doc.

Definition w0 : world :=
  World
    (answer
       [ (git_log_argv (IMAGE_FILES B0), Completed 0 (bytes_of "abc1234"));
         (git_log_argv ([B0] ++ IMAGE_FILES B0),
          Completed 0 (bytes_of "def456"));
         (git_diff_argv (IMAGE_FILES B0) (py "HEAD~1..HEAD"),
          Completed 0 []) ]
       (Completed 0 []))
    as_written.

Definition chart0 : list (str * yaml) :=
  [ (py "name", YStr (py "binderhub"));
    (py "version", YStr (py "1.2.3-abc123")) ].

Definition image0 : list (str * yaml) :=
  [ (py "name", YStr (py "jupyterhub/k8s-binderhub"));
    (py "tag", YStr (py "0000000")) ].

Definition values0 : list (str * yaml) :=
  [ (py "replicas", YInt 2); (py "image", YMap image0) ].

Definition fs0 : gmap str file :=
  <[values_yaml B0 := Parsed (YMap values0)]>
    (<[chart_yaml B0 := Parsed (YMap chart0)]> ∅).

(** A path of the checkout no commit touched: [git log] exits with 0 and
    prints nothing for it, as [w0] does for every command it has no answer
    for. *)
Definition untouched : str := py "/repo/docs".

(** A repository without a commit: [git log] exits with 128. *)
Definition w_no_commit : world :=
  World (fun _ => Completed 128 []) as_written.

(** A file whose name is one space changed at the top of the repository:
    [git diff --name-only] prints the name and a newline. *)
Definition w_blank : world :=
  World (fun _ => Completed 0 [x20; x0a]) as_written.

(** The last commit on [CHART_FILES] is [aaa1111]; a later commit,
    [bbb2222], changed [helm-chart/build.py] and nothing else. *)
Definition w_drift : world :=
  World
    (answer
       [ (git_log_argv (IMAGE_FILES B0), Completed 0 (bytes_of "aaa1111"));
         (git_log_argv (CHART_FILES B0), Completed 0 (bytes_of "aaa1111"));
         (git_log_argv ([B0] ++ IMAGE_FILES B0),
          Completed 0 (bytes_of "bbb2222")) ]
       (Completed 0 []))
    as_written.

(** [stampValues] then [stampChart], as [main] runs them. *)
Definition stamp (B : str) (w : world) (prefix : str) : M yaml :=
  build_values B w prefix ;;; build_chart B w.

(** ** Stages of a run *)

(** The commands of the build stage: the change check, the two questions
    to [git log], and [docker build]. *)
Definition build_stage_command (B : str) (c : command) : Prop :=
  (exists range, c = cmd (git_diff_argv (IMAGE_FILES B) range))
  \/ c = cmd (git_log_argv (IMAGE_FILES B))
  \/ c = cmd (git_log_argv ([B] ++ IMAGE_FILES B))
  \/ (exists image_spec tag image_path,
         c = cmd (docker_build_argv image_spec tag image_path)).

(** A push to the container registry. *)
Definition docker_push_command (c : command) : Prop :=
  exists rest, argv c = py "docker" :: py "push" :: rest.

(** The commands [publish_pages] runs: its question to [git log], which it
    asks first and always, and the commands that follow. *)
Definition publish_stage_command (B : str) (c : command) : Prop :=
  c = cmd (git_log_argv [py "."])
  \/ exists version, In c (publish_commands B version).

Definition build_stage_event (B : str) (e : event) : Prop :=
  match e with
  | Run c => build_stage_command B c
  | Print _ => True
  end.

(** [fs'] is [fs] but for the files [ps]. *)
Definition frame (ps : list str) (fs fs' : gmap str file) : Prop :=
  forall p : str, ~ In p ps -> fs' !! p = fs !! p.

(** ** More of Python, to state what the script's helpers do

    In what follows as before, the files are those the script itself reads
    and writes; what git, docker and helm do to the disk is not part of
    the model. *)

(** [sep.join(parts)], for a separator of one character. *)
Fixpoint join_with (sep : N) (parts : list str) : str :=
  match parts with
  | [] => []
  | [p] => p
  | p :: ps => p ++ sep :: join_with sep ps
  end.

(** A Unicode scalar value: a code point that is not a surrogate. *)
Definition scalar_value (c : N) : Prop :=
  c <= 1114111 /\ ~ (55296 <= c <= 57343).

(** White space all along. *)
Definition blank (s : str) : Prop := forall c, In c s -> isspace c = true.

(** A path [os.path.dirname] and [os.path.abspath] may return: it does not
    end with a slash, unless it is made of slashes only. *)
Definition normal (a : str) : Prop :=
  endswith_sep a = false \/ (forall c, In c a -> c = SEP).

(** [git log] answers with bytes that are not UTF-8. *)
Definition w_latin1 : world := World (fun _ => Completed 0 [xe9]) as_written.

(** The [docker build] and [docker push] commands of [build_images] for
    the image [image], when [last_git_modified(IMAGE_FILES)] is [v]. *)
Definition build_command (B prefix v image : str) : command :=
  cmd (docker_build_argv (prefix ++ image ++ py ":" ++ v) v
         (join B [py "images"; image])).

Definition push_command (prefix v image : str) : command :=
  cmd (docker_push_argv (prefix ++ image ++ py ":" ++ v)).

(** What an iteration of [build_images] that builds, and pushes if asked
    to, runs. *)
Definition image_events (B prefix v : str) (range : option str) (push : bool)
    (image : str) : list event :=
  consulted B range
  ++ [Run (cmd (git_log_argv (IMAGE_FILES B)));
      Run (build_command B prefix v image)]
  ++ (if push then [Run (push_command prefix v image)] else []).

(** [docker build] fails on the image [binderhub]; the rest is as in
    [w0]. *)
Definition w_build_fails : world := World (fun c =>
  if decide (argv c = argv (build_command B0 (py "acme/k8s-") (py "abc1234")
                                (py "binderhub")))
  then Completed 1 []
  else w0 c) as_written.

(** [docker push] fails on the image [binderhub]; the rest is as in
    [w0]. *)
Definition w_push_fails : world := World (fun c =>
  if decide (argv c = argv (push_command (py "acme/k8s-") (py "abc1234")
                                (py "binderhub")))
  then Completed 1 []
  else w0 c) as_written.

(** Checkouts whose manifests are not as the script expects them. *)
Definition fs_no_image : gmap str file :=
  <[values_yaml B0 := Parsed (YMap [ (py "replicas", YInt 2) ])]> fs0.

Definition fs_values_list : gmap str file :=
  <[values_yaml B0 := Parsed (YSeq [YStr (py "image")])]> fs0.

Definition fs_image_string : gmap str file :=
  <[values_yaml B0 :=
      Parsed (YMap [ (py "image", YStr (py "binderhub:latest")) ])]> fs0.

Definition fs_no_version : gmap str file :=
  <[chart_yaml B0 := Parsed (YMap [ (py "name", YStr (py "binderhub")) ])]>
    fs0.

Definition fs_version_number : gmap str file :=
  <[chart_yaml B0 := Parsed (YMap [ (py "name", YStr (py "binderhub"));
                                    (py "version", YInt 1) ])]> fs0.

Definition fs_chart_null : gmap str file :=
  <[chart_yaml B0 := Parsed YNull]> fs0.

(** The three stages [main] runs before it publishes. *)
Definition build_stage (B : str) (w : world) (prefix : str)
    (range : option str) (push : bool) : M yaml :=
  build_images B w prefix [py "binderhub"] range push ;;;
  build_values B w prefix ;;;
  build_chart B w.

(** The events of the three stages: those of the build stage, and the
    pushes to the registry. *)
Definition stage_event (B : str) (e : event) : Prop :=
  build_stage_event B e \/ exists c, e = Run c /\ docker_push_command c.

(** [git commit] has nothing to commit and fails; every other command
    succeeds and [git log] answers [abc1234]. *)
Definition w_nothing_to_commit : world := World (fun c =>
  if decide (firstn 2 (argv c) = [py "git"; py "commit"])
  then Completed 1 []
  else Completed 0 (bytes_of "abc1234")) as_written.

(** Every command succeeds and [git log] answers [abc1234]. *)
Definition w_all_fine : world :=
  World (fun _ => Completed 0 (bytes_of "abc1234")) as_written.





(** ** Running computations *)

Lemma bind_run {A B} (m : M A) (f : A -> M B) fs a fs' t :
  m fs = Outcome (inr a) fs' t ->
  bind m f fs
  = Outcome (result (f a fs')) (files (f a fs')) (t ++ trace (f a fs')).
Proof. intros H. unfold bind. rewrite H. reflexivity. Qed.

Lemma bind_raise {A B} (m : M A) (f : A -> M B) fs e fs' t :
  m fs = Outcome (inl e) fs' t ->
  bind m f fs = Outcome (inl e) fs' t.
Proof. intros H. unfold bind. rewrite H. reflexivity. Qed.

Lemma outcome_eta {A} (o : outcome A) :
  Outcome (result o) (files o) (trace o) = o.
Proof. destruct o; reflexivity. Qed.

Lemma bind_lift_inr {A B} (r : exn + A) (f : A -> M B) fs a :
  r = inr a -> bind (lift r) f fs = f a fs.
Proof.
  intros ->. unfold bind, lift, ret. simpl. apply outcome_eta.
Qed.

Section Runs.

Variable BASEPATH : str.
Variable w : world.

Lemma check_output_ok c fs :
  returncode (w c) = 0%Z ->
  check_output w c fs = Outcome (inr (stdout (w c))) fs [Run c].
Proof.
  intros H. unfold check_output, bind, emit. simpl.
  destruct (decide (returncode (w c) = 0%Z)); [reflexivity | contradiction].
Qed.

Lemma check_output_fail c fs :
  returncode (w c) <> 0%Z ->
  check_output w c fs
  = Outcome (inl (CalledProcessError c (returncode (w c)))) fs [Run c].
Proof.
  intros H. unfold check_output, bind, emit. simpl.
  destruct (decide (returncode (w c) = 0%Z)); [contradiction | reflexivity].
Qed.

Lemma last_git_modified_ok paths v fs :
  log_answers w (as_list paths) v ->
  last_git_modified w paths fs
  = Outcome (inr v) fs [Run (cmd (git_log_argv (as_list paths)))].
Proof.
  intros [Hrc Hdec]. unfold last_git_modified.
  rewrite (bind_run _ _ _ _ _ _ (check_output_ok _ fs Hrc)).
  unfold decode_utf8. rewrite Hdec. reflexivity.
Qed.

Lemma path_changed_ok paths range s fs :
  diff_answers w (as_list paths) range s ->
  path_changed w paths range fs
  = Outcome (inr (negb (bool_decide (strip s = [])))) fs
      [Run (cmd (git_diff_argv (as_list paths) range))].
Proof.
  intros [Hrc Hdec]. unfold path_changed.
  rewrite (bind_run _ _ _ _ _ _ (check_output_ok _ fs Hrc)).
  unfold decode_utf8. rewrite Hdec. reflexivity.
Qed.

End Runs.

(** ** Strings: facts *)

(** [s.split(c)[0]] is what stands before the first [c]. *)
Lemma index0_split sep s : index0 (split sep s) = inr (before_first sep s).
Proof.
  induction s as [|c s IH]; simpl; [reflexivity |].
  destruct (c =? sep); [reflexivity |].
  destruct (split sep s) as [|p ps]; simpl in *; [discriminate |].
  congruence.
Qed.

Lemma before_first_app sep s t :
  before_first sep (before_first sep s ++ sep :: t) = before_first sep s.
Proof.
  induction s as [|c s IH]; simpl.
  - rewrite N.eqb_refl. reflexivity.
  - destruct (c =? sep) eqn:E; simpl.
    + rewrite N.eqb_refl. reflexivity.
    + rewrite E, IH. reflexivity.
Qed.

(** [before_first] is what the specification says: the string is that
    part, then nothing or the separator and the rest, and the part holds no
    separator. *)
Lemma before_first_prefix sep s :
  exists rest,
    s = before_first sep s ++ rest
    /\ (rest = [] \/ exists t, rest = sep :: t).
Proof.
  induction s as [|c s (rest & IH & Hrest)]; simpl.
  - exists []. split; [reflexivity | left; reflexivity].
  - destruct (c =? sep) eqn:E.
    + apply N.eqb_eq in E. subst c. exists (sep :: s).
      split; [reflexivity | right; eauto].
    + exists rest. split; [simpl; congruence | exact Hrest].
Qed.

Lemma before_first_no_sep sep s : ~ In sep (before_first sep s).
Proof.
  induction s as [|c s IH]; simpl; [tauto |].
  destruct (c =? sep) eqn:E; simpl; [tauto |].
  apply N.eqb_neq in E. intros [H | H]; [congruence | tauto].
Qed.

(** ** Mappings: facts *)

Lemma assoc_get_set_eq k v m : assoc_get k (assoc_set k v m) = Some v.
Proof.
  induction m as [|[k' v'] m IH]; simpl.
  - destruct (decide (k = k)); [reflexivity | contradiction].
  - destruct (decide (k = k')) as [->|Hne]; simpl.
    + destruct (decide (k' = k')); [reflexivity | contradiction].
    + destruct (decide (k = k')); [contradiction | exact IH].
Qed.

Lemma assoc_get_set_ne k k' v m :
  k <> k' -> assoc_get k' (assoc_set k v m) = assoc_get k' m.
Proof.
  intros Hne. induction m as [|[k0 v0] m IH]; simpl.
  - destruct (decide (k' = k)); [congruence | reflexivity].
  - destruct (decide (k = k0)) as [->|Hne0]; simpl.
    + destruct (decide (k' = k0)); [congruence | reflexivity].
    + destruct (decide (k' = k0)); [reflexivity | exact IH].
Qed.

(** Writing the value a key already has changes nothing. *)
Lemma assoc_set_same k v m : assoc_get k m = Some v -> assoc_set k v m = m.
Proof.
  induction m as [|[k' v'] m IH]; simpl; [discriminate |].
  destruct (decide (k = k')) as [->|Hne]; intros H.
  - congruence.
  - rewrite IH; [reflexivity | exact H].
Qed.

(** ** The manifest updater *)

Lemma load_ok (w : world) (path : str) (doc : yaml) (fs : gmap str file) :
  reads w fs path doc -> load w path fs = Outcome (inr doc) fs [].
Proof. intros (f & H & Hf). unfold load. rewrite H, Hf. reflexivity. Qed.

(** A file known by the document it holds reads as that document. *)
Lemma reads_parsed (w : world) (fs : gmap str file) (path : str)
    (doc : yaml) :
  fs !! path = Some (Parsed doc) -> reads w fs path doc.
Proof. intros H. exists (Parsed doc). split; [exact H | reflexivity]. Qed.

(** Writing another file does not change what a file reads as. *)
Lemma reads_insert_ne (w : world) (fs : gmap str file) (p q : str)
    (f : file) (doc : yaml) :
  p <> q -> reads w (<[p := f]> fs) q doc <-> reads w fs q doc.
Proof.
  intros Hne. unfold reads. rewrite lookup_insert_ne by exact Hne.
  reflexivity.
Qed.

(** A run of [build_chart] on a well-formed chart metadata document. *)
Lemma build_chart_run (B : str) (w : world) (fs : gmap str file)
    (chart : list (str * yaml)) (old v : str) :
  log_answers w ([B] ++ IMAGE_FILES B) v ->
  reads w fs (chart_yaml B) (YMap chart) ->
  assoc_get (py "version") chart = Some (YStr old) ->
  build_chart B w fs
  = Outcome (inr (YStr old))
      (<[chart_yaml B :=
           Dumped (YMap (assoc_set (py "version")
                           (YStr (before_first 45 old ++ py "-" ++ v))
                           chart))]> fs)
      [Run (cmd (git_log_argv ([B] ++ IMAGE_FILES B)))].
Proof.
  intros Hlog Hfile Hver. unfold build_chart.
  rewrite (bind_run _ _ _ _ _ _
             (last_git_modified_ok w (Paths ([B] ++ IMAGE_FILES B)) v fs Hlog)).
  rewrite (bind_run _ _ _ _ _ _ (load_ok _ _ _ _ Hfile)).
  assert (Hget : getitem (YMap chart) (py "version") = inr (YStr old))
    by (unfold getitem; rewrite Hver; reflexivity).
  rewrite !(bind_lift_inr _ _ _ _ Hget).
  rewrite (bind_lift_inr _ _ _ _ (eq_refl : method_split (YStr old) 45 = inr _)).
  rewrite (bind_lift_inr _ _ _ _ (index0_split 45 old)).
  reflexivity.
Qed.

Lemma bind_inr {A B} (m : M A) (f : A -> M B) fs b :
  result (bind m f fs) = inr b ->
  exists a, result (m fs) = inr a /\ result (f a (files (m fs))) = inr b.
Proof.
  unfold bind. destruct (result (m fs)) as [e|a]; simpl; [discriminate |].
  intros H. exists a. split; [reflexivity | exact H].
Qed.

Lemma lift_inr {A} (r : exn + A) fs a : result (lift r fs) = inr a -> r = inr a.
Proof. destruct r; simpl; congruence. Qed.

Lemma load_inr (w : world) (path : str) (fs : gmap str file) (doc : yaml) :
  result (load w path fs) = inr doc -> reads w fs path doc.
Proof.
  unfold load, reads. destruct (fs !! path) as [f|]; simpl; [| discriminate].
  intros H. exists f. split; [reflexivity | exact H].
Qed.

Lemma load_files (w : world) (path : str) (fs : gmap str file) :
  files (load w path fs) = fs.
Proof. unfold load. destruct (fs !! path); reflexivity. Qed.

Lemma lift_files {A} (r : exn + A) fs : files (lift r fs) = fs.
Proof. destruct r; reflexivity. Qed.

Lemma last_git_modified_files w paths fs :
  files (last_git_modified w paths fs) = fs.
Proof.
  unfold last_git_modified, check_output, decode_utf8, bind, emit. simpl.
  destruct (decide _); simpl; [destruct (decode _) |]; reflexivity.
Qed.

Lemma build_chart_returns_field (B : str) (w : world) (fs : gmap str file)
    (r : yaml) :
  result (build_chart B w fs) = inr r ->
  exists doc, reads w fs (chart_yaml B) doc
              /\ getitem doc (py "version") = inr r.
Proof.
  unfold build_chart. intros H.
  apply bind_inr in H as (version & _ & H).
  rewrite last_git_modified_files in H.
  apply bind_inr in H as (doc & Hload & H).
  rewrite load_files in H. apply load_inr in Hload.
  apply bind_inr in H as (raw & Hraw & H). apply lift_inr in Hraw.
  rewrite lift_files in H.
  do 5 (apply bind_inr in H as (? & _ & H)).
  simpl in H. exists doc. split; [exact Hload | congruence].
Qed.

Lemma assoc_set_set k v v' m :
  assoc_set k v (assoc_set k v' m) = assoc_set k v m.
Proof.
  induction m as [|[k0 v0] m IH]; simpl.
  - destruct (decide (k = k)); [reflexivity | contradiction].
  - destruct (decide (k = k0)) as [->|Hne]; simpl.
    + destruct (decide (k0 = k0)); [reflexivity | contradiction].
    + destruct (decide (k = k0)); [contradiction |]. rewrite IH. reflexivity.
Qed.

Lemma setitem2_ok (values inner : list (str * yaml)) (k1 k2 : str) (v : yaml) :
  assoc_get k1 values = Some (YMap inner) ->
  setitem2 (YMap values) k1 k2 v
  = inr (YMap (assoc_set k1 (YMap (assoc_set k2 v inner)) values)).
Proof. intros H. unfold setitem2, getitem. rewrite H. reflexivity. Qed.

(** A run of [build_values] on a well-formed values document. *)
Lemma build_values_run (B : str) (w : world) (prefix : str)
    (fs : gmap str file) (values image : list (str * yaml)) (v : str) :
  log_answers w (IMAGE_FILES B) v ->
  reads w fs (values_yaml B) (YMap values) ->
  assoc_get (py "image") values = Some (YMap image) ->
  build_values B w prefix fs
  = Outcome (inr tt)
      (<[values_yaml B :=
           Dumped (YMap (assoc_set (py "image")
                           (YMap (assoc_set (py "tag") (YStr v)
                                    (assoc_set (py "name")
                                       (YStr (prefix ++ NAME)) image)))
                           values))]> fs)
      [Run (cmd (git_log_argv (IMAGE_FILES B)))].
Proof.
  intros Hlog Hfile Himage. unfold build_values.
  rewrite (bind_run _ _ _ _ _ _ (load_ok _ _ _ _ Hfile)).
  rewrite (bind_lift_inr _ _ _ _
             (setitem2_ok values image _ (py "name") _ Himage)).
  rewrite (bind_run _ _ _ _ _ _
             (last_git_modified_ok w (Paths (IMAGE_FILES B)) v fs Hlog)).
  rewrite (bind_lift_inr _ _ _ _
             (setitem2_ok _ _ _ (py "tag") (YStr v)
                (assoc_get_set_eq (py "image") _ values))).
  rewrite assoc_set_set. reflexivity.
Qed.

(** ** The image builder *)

Section Builder.

Variable B : str.
Variable w : world.

Lemma check_call_trace c fs : trace (check_call w c fs) = [Run c].
Proof.
  unfold check_call, bind, emit. simpl.
  destruct (decide (returncode (w c) = 0%Z)); reflexivity.
Qed.

Lemma check_call_files c fs : files (check_call w c fs) = fs.
Proof.
  unfold check_call, bind, emit. simpl.
  destruct (decide (returncode (w c) = 0%Z)); reflexivity.
Qed.

(** The image files did not change in [r]: the iteration stops after the
    message. *)
Lemma build_image_skip prefix r s push image fs :
  r <> [] ->
  diff_answers w (IMAGE_FILES B) r s ->
  strip s = [] ->
  build_image B w prefix (Some r) push image fs
  = Outcome (inr tt) fs
      [Run (cmd (git_diff_argv (IMAGE_FILES B) r));
       Print (skip_message image r)].
Proof.
  intros Hr Hdiff Hs. destruct r as [|c r]; [contradiction |].
  unfold build_image, bind.
  rewrite (path_changed_ok w (Paths (IMAGE_FILES B)) _ s fs Hdiff).
  rewrite Hs. reflexivity.
Qed.

Lemma build_image_no_range prefix push image fs :
  build_image B w prefix None push image fs
  = build_and_push B w prefix push image fs.
Proof.
  unfold build_image, build_and_push.
  unfold bind at 1. simpl. apply outcome_eta.
Qed.

Lemma build_image_empty_range prefix push image fs :
  build_image B w prefix (Some []) push image fs
  = build_image B w prefix None push image fs.
Proof. reflexivity. Qed.

Lemma build_image_changed prefix r s push image fs :
  r <> [] ->
  diff_answers w (IMAGE_FILES B) r s ->
  strip s <> [] ->
  build_image B w prefix (Some r) push image fs
  = let o := build_and_push B w prefix push image fs in
    Outcome (result o) (files o)
      (Run (cmd (git_diff_argv (IMAGE_FILES B) r)) :: trace o).
Proof.
  intros Hr Hdiff Hs. destruct r as [|c r]; [contradiction |].
  unfold build_image, build_and_push.
  erewrite bind_run.
  2: { erewrite bind_run
         by exact (path_changed_ok w (Paths (IMAGE_FILES B)) _ s fs Hdiff).
       rewrite bool_decide_false by exact Hs. reflexivity. }
  reflexivity.
Qed.

Lemma build_and_push_trace prefix push image fs v :
  log_answers w (IMAGE_FILES B) v ->
  exists rest,
    trace (build_and_push B w prefix push image fs)
    = [Run (cmd (git_log_argv (IMAGE_FILES B)));
       Run (cmd (docker_build_argv (prefix ++ image ++ py ":" ++ v) v
                   (join B [py "images"; image])))] ++ rest.
Proof.
  intros Hlog. unfold build_and_push.
  rewrite (bind_run _ _ _ _ _ _
             (last_git_modified_ok w (Paths (IMAGE_FILES B)) v fs Hlog)).
  simpl. unfold bind. rewrite check_call_trace.
  match goal with
  | |- context [result (check_call w ?c fs)] =>
    destruct (result (check_call w c fs))
  end; simpl; eauto.
Qed.

End Builder.

Lemma build_images_skip (B : str) (w : world) (prefix r s : str) (push : bool)
    (images : list str) (fs : gmap str file) :
  r <> [] ->
  diff_answers w (IMAGE_FILES B) r s ->
  strip s = [] ->
  build_images B w prefix images (Some r) push fs
  = Outcome (inr tt) fs
      (flat_map (fun image =>
                   [Run (cmd (git_diff_argv (IMAGE_FILES B) r));
                    Print (skip_message image r)]) images).
Proof.
  intros Hr Hdiff Hs. induction images as [|image images IH].
  - reflexivity.
  - cbn [build_images flat_map].
    rewrite (bind_run _ _ _ _ _ _
               (build_image_skip B w prefix r s push image fs Hr Hdiff Hs)).
    rewrite IH. reflexivity.
Qed.

Lemma build_image_builds (B : str) (w : world) (prefix v : str)
    (range : option str) (push : bool) (image : str) (fs : gmap str file) :
  log_answers w (IMAGE_FILES B) v ->
  not_skipped B w range ->
  exists rest,
    trace (build_image B w prefix range push image fs)
    = consulted B range
      ++ [Run (cmd (git_log_argv (IMAGE_FILES B)));
          Run (cmd (docker_build_argv (prefix ++ image ++ py ":" ++ v) v
                      (join B [py "images"; image])))]
      ++ rest.
Proof.
  intros Hlog Hgo.
  destruct (build_and_push_trace B w prefix push image fs v Hlog)
    as [rest Hrest].
  exists rest. destruct range as [[|c r]|].
  - rewrite build_image_empty_range, build_image_no_range. exact Hrest.
  - destruct Hgo as (s & Hdiff & Hs).
    assert (Hr : c :: r <> []) by discriminate.
    etransitivity.
    { exact (f_equal trace
               (build_image_changed B w prefix (c :: r) s push image fs
                  Hr Hdiff Hs)). }
    cbn [trace consulted]. rewrite Hrest. reflexivity.
  - rewrite build_image_no_range. exact Hrest.
Qed.

(** ** Stripping *)

Lemma lstrip_nil (s : str) :
  lstrip s = [] <-> (forall c, In c s -> isspace c = true).
Proof.
  induction s as [|x s IH]; simpl.
  - split; [intros _ c [] | reflexivity].
  - destruct (isspace x) eqn:E.
    + rewrite IH. split.
      * intros H c [<- | Hc]; [exact E | exact (H c Hc)].
      * intros H c Hc. apply H. right. exact Hc.
    + split; [discriminate |].
      intros H. specialize (H x (or_introl eq_refl)). congruence.
Qed.

Lemma lstrip_head (s : str) (c : N) (t : str) :
  lstrip s = c :: t -> isspace c = false.
Proof.
  induction s as [|x s IH]; simpl; [discriminate |].
  destruct (isspace x) eqn:E; [exact IH |].
  intros H. injection H as <- _. exact E.
Qed.

(** [strip] leaves nothing exactly when every character is white space. *)
Lemma strip_nil (s : str) :
  strip s = [] <-> (forall c, In c s -> isspace c = true).
Proof.
  unfold strip, rstrip. rewrite <- lstrip_nil. split.
  - intros H. apply (f_equal (@rev N)) in H. rewrite rev_involutive in H.
    simpl in H. pose proof (proj1 (lstrip_nil _) H) as Hall.
    destruct (lstrip s) as [|c t] eqn:E; [reflexivity |].
    apply lstrip_head in E.
    specialize (Hall c). rewrite <- in_rev in Hall.
    specialize (Hall (or_introl eq_refl)). congruence.
  - intros ->. reflexivity.
Qed.

Lemma strip_not_nil (s : str) :
  strip s <> [] <-> (exists c, In c s /\ isspace c = false).
Proof.
  rewrite strip_nil. split.
  - intros H. induction s as [|x s IH].
    + exfalso. apply H. intros c [].
    + destruct (isspace x) eqn:E.
      * destruct IH as (c & Hc & Hsp).
        { intros Hall. apply H. intros c [<- | Hc]; [exact E | auto]. }
        exists c. split; [right; exact Hc | exact Hsp].
      * exists x. split; [left; reflexivity | exact E].
  - intros (c & Hc & Hsp) Hall. specialize (Hall c Hc). congruence.
Qed.

(** ** Paths *)

Lemma join2_length (a b : str) :
  startswith_sep b = false ->
  (length a + length b <= length (join2 a b) <= length a + length b + 1)%nat
  \/ (a = [] /\ join2 a b = b).
Proof.
  intros Hb. unfold join2. rewrite Hb.
  destruct a as [|x a]; [right; split; reflexivity | left].
  destruct (endswith_sep (x :: a)); rewrite ?length_app; simpl; lia.
Qed.

Lemma join2_length_le (a b : str) :
  startswith_sep b = false ->
  (length b <= length (join2 a b) <= length a + length b + 1)%nat.
Proof.
  intros Hb. destruct (join2_length a b Hb) as [H | [-> ->]]; simpl; lia.
Qed.

Lemma join2_length_ge (a b : str) :
  startswith_sep b = false ->
  (length a + length b <= length (join2 a b))%nat.
Proof.
  intros Hb. destruct (join2_length a b Hb) as [H | [-> ->]]; simpl; lia.
Qed.

(** The directory of the image and the directory of the chart differ,
    wherever the script lies. *)
Lemma IMAGE_PATH_not_CHARTPATH (B : str) : IMAGE_PATH B <> CHARTPATH B.
Proof.
  intros H. apply (f_equal (@length N)) in H.
  unfold IMAGE_PATH, CHARTPATH, NAME, join in H. simpl fold_left in H.
  pose proof (join2_length_ge (join2 B (py "images")) (py "binderhub")
                eq_refl) as H1.
  pose proof (join2_length_ge B (py "images") eq_refl) as H2.
  pose proof (join2_length_le B (py "binderhub") eq_refl) as H3.
  change (length (py "images")) with 6%nat in H2.
  change (length (py "binderhub")) with 9%nat in H1, H3.
  lia.
Qed.

(** [build_chart] does not ask about [CHART_FILES]. *)
Lemma chart_query_not_CHART_FILES (B : str) :
  [B] ++ IMAGE_FILES B <> CHART_FILES B.
Proof.
  unfold CHART_FILES, IMAGE_FILES. simpl. intros H.
  injection H as _ _ _ H. exact (IMAGE_PATH_not_CHARTPATH B H).
Qed.

Lemma values_yaml_not_chart_yaml (B : str) : values_yaml B <> chart_yaml B.
Proof.
  unfold values_yaml, chart_yaml, join. simpl fold_left.
  generalize (CHARTPATH B). intros c. unfold join2.
  change (startswith_sep (py "values.yaml")) with false.
  change (startswith_sep (py "Chart.yaml")) with false.
  cbv iota. destruct c as [|x c]; [discriminate |].
  destruct (endswith_sep (x :: c)); intros H;
    apply app_inv_head in H; discriminate H.
Qed.

(** ** What a normal return tells *)

Lemma last_git_modified_inr (w : world) (paths : paths_arg)
    (fs : gmap str file) (v : str) :
  result (last_git_modified w paths fs) = inr v ->
  log_answers w (as_list paths) v.
Proof.
  unfold last_git_modified, check_output, decode_utf8, bind, emit, log_answers.
  simpl. destruct (decide _) as [Hrc|Hrc]; simpl; [| discriminate].
  destruct (decode _) as [s|]; simpl; [| discriminate].
  intros H. injection H as ->. split; [exact Hrc | reflexivity].
Qed.

Lemma setitem2_inr (o o' : yaml) (k1 k2 : str) (v : yaml) :
  setitem2 o k1 k2 v = inr o' ->
  exists values inner,
    o = YMap values /\ assoc_get k1 values = Some (YMap inner).
Proof.
  unfold setitem2, getitem, setitem.
  destruct o as [| | | | |values]; try discriminate.
  destruct (assoc_get k1 values) as [[| | | | |inner]|] eqn:E;
    try discriminate.
  intros _. exists values, inner. split; [reflexivity | exact E].
Qed.

Lemma build_values_inr (B : str) (w : world) (prefix : str)
    (fs : gmap str file) (u : unit) :
  result (build_values B w prefix fs) = inr u ->
  exists values image v,
    log_answers w (IMAGE_FILES B) v
    /\ reads w fs (values_yaml B) (YMap values)
    /\ assoc_get (py "image") values = Some (YMap image).
Proof.
  unfold build_values. intros H.
  apply bind_inr in H as (doc & Hload & H).
  rewrite load_files in H. apply load_inr in Hload.
  apply bind_inr in H as (doc1 & Hset & H). apply lift_inr in Hset.
  rewrite lift_files in H.
  apply bind_inr in H as (v & Hlog & _). apply last_git_modified_inr in Hlog.
  apply setitem2_inr in Hset as (values & image & -> & Himage).
  exists values, image, v. auto.
Qed.

Lemma build_chart_inr (B : str) (w : world) (fs : gmap str file) (r : yaml) :
  result (build_chart B w fs) = inr r ->
  exists chart old v,
    log_answers w ([B] ++ IMAGE_FILES B) v
    /\ reads w fs (chart_yaml B) (YMap chart)
    /\ assoc_get (py "version") chart = Some (YStr old).
Proof.
  unfold build_chart. intros H.
  apply bind_inr in H as (v & Hlog & H). apply last_git_modified_inr in Hlog.
  rewrite last_git_modified_files in H.
  apply bind_inr in H as (doc & Hload & H).
  rewrite load_files in H. apply load_inr in Hload.
  apply bind_inr in H as (raw & _ & H). rewrite lift_files in H.
  apply bind_inr in H as (old & Hold & H). apply lift_inr in Hold.
  rewrite lift_files in H.
  apply bind_inr in H as (parts & Hsplit & _). apply lift_inr in Hsplit.
  unfold getitem in Hold.
  destruct doc as [| | | | |chart]; try discriminate.
  destruct (assoc_get (py "version") chart) as [y|] eqn:Hver; [| discriminate].
  injection Hold as ->.
  destruct old as [| | |old| |]; try discriminate.
  exists chart, old, v. auto.
Qed.

(** ** Traces and frames of computations *)

Lemma trace_bind {A B} (P : event -> Prop) (m : M A) (f : A -> M B) fs :
  Forall P (trace (m fs)) ->
  (forall a fs', Forall P (trace (f a fs'))) ->
  Forall P (trace (bind m f fs)).
Proof.
  intros Hm Hf. unfold bind.
  destruct (result (m fs)) as [e|a]; simpl; [exact Hm |].
  apply Forall_app. split; [exact Hm | apply Hf].
Qed.

Lemma frame_refl (ps : list str) (fs : gmap str file) : frame ps fs fs.
Proof. intros p _. reflexivity. Qed.

Lemma frame_trans (ps : list str) (fs1 fs2 fs3 : gmap str file) :
  frame ps fs1 fs2 -> frame ps fs2 fs3 -> frame ps fs1 fs3.
Proof. intros H12 H23 p Hp. rewrite (H23 p Hp). exact (H12 p Hp). Qed.

Lemma frame_bind {A B} (ps : list str) (m : M A) (f : A -> M B) fs :
  frame ps fs (files (m fs)) ->
  (forall a fs', frame ps fs' (files (f a fs'))) ->
  frame ps fs (files (bind m f fs)).
Proof.
  intros Hm Hf. unfold bind.
  destruct (result (m fs)) as [e|a]; simpl; [exact Hm |].
  exact (frame_trans ps _ _ _ Hm (Hf a _)).
Qed.

Lemma frame_dump (ps : list str) (doc : yaml) (path : str) (fs : gmap str file) :
  In path ps -> frame ps fs (files (dump doc path fs)).
Proof.
  intros Hin p Hp. unfold dump. simpl.
  apply lookup_insert_ne. intros ->. exact (Hp Hin).
Qed.

Lemma frame_same (ps : list str) (fs fs' : gmap str file) : fs' = fs -> frame ps fs fs'.
Proof. intros ->. apply frame_refl. Qed.

(** A computation that leaves the files as they are, step by step. *)
Lemma files_bind {A B} (m : M A) (f : A -> M B) fs :
  files (m fs) = fs ->
  (forall a, files (f a fs) = fs) ->
  files (bind m f fs) = fs.
Proof.
  intros Hm Hf. unfold bind.
  destruct (result (m fs)) as [e|a]; simpl; [exact Hm |].
  rewrite Hm. apply Hf.
Qed.

Lemma check_output_trace w c fs : trace (check_output w c fs) = [Run c].
Proof.
  unfold check_output, bind, emit. simpl.
  destruct (decide (returncode (w c) = 0%Z)); reflexivity.
Qed.

Lemma check_output_files w c fs : files (check_output w c fs) = fs.
Proof.
  unfold check_output, bind, emit. simpl.
  destruct (decide (returncode (w c) = 0%Z)); reflexivity.
Qed.

Lemma last_git_modified_trace w paths fs :
  trace (last_git_modified w paths fs)
  = [Run (cmd (git_log_argv (as_list paths)))].
Proof.
  unfold last_git_modified, bind. rewrite check_output_trace.
  destruct (result (check_output w _ fs)); simpl; [reflexivity |].
  unfold decode_utf8. destruct (decode _); reflexivity.
Qed.

Lemma path_changed_trace w paths range fs :
  trace (path_changed w paths range fs)
  = [Run (cmd (git_diff_argv (as_list paths) range))].
Proof.
  unfold path_changed. unfold bind at 1. rewrite check_output_trace.
  destruct (result (check_output w _ fs)); simpl; [reflexivity |].
  unfold decode_utf8, bind. destruct (decode _); reflexivity.
Qed.

Lemma path_changed_files w paths range fs :
  files (path_changed w paths range fs) = fs.
Proof.
  unfold path_changed. unfold bind at 1. rewrite check_output_files.
  destruct (result (check_output w _ fs)) eqn:E; simpl; [reflexivity |].
  unfold decode_utf8, bind. destruct (decode _); reflexivity.
Qed.

Lemma lift_trace {A} (r : exn + A) fs : trace (lift r fs) = [].
Proof. destruct r; reflexivity. Qed.

Lemma load_trace (w : world) (path : str) (fs : gmap str file) :
  trace (load w path fs) = [].
Proof. unfold load. destruct (fs !! path); reflexivity. Qed.

(** ** The stages of [main] *)

Create HintDb stages.

(** A trace written out, each of its events of the build stage. *)
Ltac events :=
  repeat match goal with
         | |- Forall _ [] => constructor
         | |- Forall _ (_ :: _) =>
           constructor; [simpl; auto with stages |]
         end.

Section Stages.

Variable B : str.
Variable w : world.

Lemma build_stage_diff range :
  build_stage_command B (cmd (git_diff_argv (IMAGE_FILES B) range)).
Proof. left. eauto. Qed.

Lemma build_stage_log_image :
  build_stage_command B (cmd (git_log_argv (IMAGE_FILES B))).
Proof. right. left. reflexivity. Qed.

Lemma build_stage_log_chart :
  build_stage_command B (cmd (git_log_argv ([B] ++ IMAGE_FILES B))).
Proof. right. right. left. reflexivity. Qed.

Lemma build_stage_docker_build image_spec tag image_path :
  build_stage_command B (cmd (docker_build_argv image_spec tag image_path)).
Proof. right. right. right. eauto. Qed.

#[local] Hint Resolve build_stage_diff build_stage_log_image
  build_stage_log_chart build_stage_docker_build : stages.

(** Without [push], an iteration of [build_images] runs commands of the
    build stage only, and writes no file. *)
Lemma build_image_no_push_trace prefix range image fs :
  Forall (build_stage_event B)
    (trace (build_image B w prefix range false image fs)).
Proof.
  unfold build_image. apply trace_bind.
  - destruct range as [[|c r]|]; [constructor | | constructor].
    apply trace_bind.
    + rewrite path_changed_trace.
      events.
    + intros changed fs'. destruct changed; simpl; events.
  - intros skip fs'. destruct skip; [constructor |].
    apply trace_bind.
    + rewrite last_git_modified_trace.
      events.
    + intros tag fs''. apply trace_bind.
      * rewrite check_call_trace.
        events.
      * intros _ fs3. constructor.
Qed.

Lemma build_image_files prefix range push image fs :
  files (build_image B w prefix range push image fs) = fs.
Proof.
  unfold build_image. apply files_bind.
  - destruct range as [[|c r]|]; [reflexivity | | reflexivity].
    apply files_bind; [apply path_changed_files |].
    intros changed. destruct changed; reflexivity.
  - intros skip. destruct skip; [reflexivity |].
    apply files_bind; [apply last_git_modified_files |].
    intros tag. apply files_bind; [apply check_call_files |].
    intros _. destruct push; [apply check_call_files | reflexivity].
Qed.

Lemma build_images_no_push_trace prefix range images fs :
  Forall (build_stage_event B)
    (trace (build_images B w prefix images range false fs)).
Proof.
  revert fs. induction images as [|image images IH]; intros fs.
  - constructor.
  - cbn [build_images]. apply trace_bind.
    + apply build_image_no_push_trace.
    + intros _ fs'. apply IH.
Qed.

Lemma build_images_files prefix range push images fs :
  files (build_images B w prefix images range push fs) = fs.
Proof.
  induction images as [|image images IH]; [reflexivity |].
  cbn [build_images]. apply files_bind.
  - apply build_image_files.
  - intros _. exact IH.
Qed.

Lemma build_values_trace prefix fs :
  Forall (build_stage_event B) (trace (build_values B w prefix fs)).
Proof.
  unfold build_values. apply trace_bind.
  - rewrite load_trace. constructor.
  - intros values fs1. apply trace_bind.
    + rewrite lift_trace. constructor.
    + intros values1 fs2. apply trace_bind.
      * rewrite last_git_modified_trace.
        events.
      * intros tag fs3. apply trace_bind.
        -- rewrite lift_trace. constructor.
        -- intros values2 fs4. constructor.
Qed.

Lemma build_values_frame prefix fs :
  frame [values_yaml B; chart_yaml B] fs (files (build_values B w prefix fs)).
Proof.
  unfold build_values. apply frame_bind.
  - apply frame_same, load_files.
  - intros values fs1. apply frame_bind.
    + apply frame_same, lift_files.
    + intros values1 fs2. apply frame_bind.
      * apply frame_same, last_git_modified_files.
      * intros tag fs3. apply frame_bind.
        -- apply frame_same, lift_files.
        -- intros values2 fs4. apply frame_dump. left. reflexivity.
Qed.

Lemma build_chart_trace fs :
  Forall (build_stage_event B) (trace (build_chart B w fs)).
Proof.
  unfold build_chart. apply trace_bind.
  - rewrite last_git_modified_trace.
    events.
  - intros version fs1. apply trace_bind.
    + rewrite load_trace. constructor.
    + intros chart fs2.
      do 5 (apply trace_bind;
            [rewrite lift_trace; constructor | intros ? ?]).
      apply trace_bind; [constructor | intros ? ?; constructor].
Qed.

Lemma build_chart_frame fs :
  frame [values_yaml B; chart_yaml B] fs (files (build_chart B w fs)).
Proof.
  unfold build_chart. apply frame_bind.
  - apply frame_same, last_git_modified_files.
  - intros version fs1. apply frame_bind.
    + apply frame_same, load_files.
    + intros chart fs2.
      do 5 (apply frame_bind;
            [apply frame_same, lift_files | intros ? ?]).
      apply frame_bind; [| intros ? ?; apply frame_refl].
      apply frame_dump. right. left. reflexivity.
Qed.

End Stages.

(** The build stage runs no command of the two other stages. *)
Lemma build_stage_not_push (B : str) (c : command) :
  build_stage_command B c -> ~ docker_push_command c.
Proof.
  intros [[range ->] | [-> | [-> | (image_spec & tag & image_path & ->)]]]
         [rest H];
    vm_compute in H; discriminate H.
Qed.

Lemma build_stage_not_publish (B : str) (c : command) :
  build_stage_command B c -> ~ publish_stage_command B c.
Proof.
  intros [[range ->] | [-> | [-> | (image_spec & tag & image_path & ->)]]]
         [H | [version H]];
    try (vm_compute in H; discriminate H);
    unfold publish_commands in H; cbn [In] in H;
    repeat (destruct H as [H | H]; [vm_compute in H; discriminate H |]);
    exact H.
Qed.

Section Publisher.

Variable B : str.
Variable w : world.

Lemma check_calls_files cs fs : files (check_calls w cs fs) = fs.
Proof.
  induction cs as [|c cs IH]; [reflexivity |].
  cbn [check_calls]. apply files_bind; [apply check_call_files |].
  intros _. exact IH.
Qed.

Lemma publish_pages_files fs : files (publish_pages B w fs) = fs.
Proof.
  unfold publish_pages. apply files_bind.
  - apply last_git_modified_files.
  - intros version. apply check_calls_files.
Qed.

(** [publish_pages] starts with its question to [git log]. *)
Lemma publish_pages_trace_head fs :
  exists rest,
    trace (publish_pages B w fs) = Run (cmd (git_log_argv [py "."])) :: rest.
Proof.
  unfold publish_pages, bind. rewrite last_git_modified_trace.
  destruct (result (last_git_modified w _ fs)); simpl; eauto.
Qed.

Lemma check_calls_trace cs fs :
  Forall (fun e => exists c, e = Run c /\ In c cs)
    (trace (check_calls w cs fs)).
Proof.
  revert fs. induction cs as [|c cs IH]; intros fs; [constructor |].
  cbn [check_calls]. apply trace_bind.
  - rewrite check_call_trace. constructor; [| constructor].
    exists c. split; [reflexivity | left; reflexivity].
  - intros _ fs'. eapply List.Forall_impl; [| apply IH].
    intros e (c' & -> & Hin). exists c'. split; [reflexivity |].
    right. exact Hin.
Qed.

(** Every command [publish_pages] runs is one of the publish stage. *)
Lemma publish_pages_trace fs :
  Forall (fun e => exists c, e = Run c /\ publish_stage_command B c)
    (trace (publish_pages B w fs)).
Proof.
  unfold publish_pages. apply trace_bind.
  - rewrite last_git_modified_trace. constructor; [| constructor].
    eexists. split; [reflexivity | left; reflexivity].
  - intros version fs'. eapply List.Forall_impl; [| apply check_calls_trace].
    intros e (c & -> & Hin). exists c. split; [reflexivity |].
    right. exists version. exact Hin.
Qed.

(** [main build] without [--push]. *)
Lemma main_no_push prefix range fs :
  main B w (Args prefix (Some (py "build")) range false) fs
  = (build_images B w prefix [py "binderhub"] range false ;;;
     build_values B w prefix ;;;
     chart_version <- build_chart B w ;;
     ret tt) fs.
Proof.
  unfold main. cbn [action image_prefix commit_range push].
  destruct (decide (Some (py "build") = Some (py "build")));
    [reflexivity | contradiction].
Qed.

Lemma main_no_push_trace prefix range fs :
  Forall (build_stage_event B)
    (trace (main B w (Args prefix (Some (py "build")) range false) fs)).
Proof.
  rewrite main_no_push. apply trace_bind.
  - apply build_images_no_push_trace.
  - intros _ fs1. apply trace_bind; [apply build_values_trace |].
    intros _ fs2. apply trace_bind; [apply build_chart_trace |].
    intros _ fs3. constructor.
Qed.

Lemma main_no_push_frame prefix range fs :
  frame [values_yaml B; chart_yaml B] fs
    (files (main B w (Args prefix (Some (py "build")) range false) fs)).
Proof.
  rewrite main_no_push. apply frame_bind.
  - apply frame_same, build_images_files.
  - intros _ fs1. apply frame_bind; [apply build_values_frame |].
    intros _ fs2. apply frame_bind; [apply build_chart_frame |].
    intros _ fs3. apply frame_refl.
Qed.

End Publisher.
(** ** More on strings *)

Lemma lstrip_suffix (s : str) : exists l, s = l ++ lstrip s /\ blank l.
Proof.
  induction s as [|x s (l & IH & Hl)]; simpl.
  - exists []. split; [reflexivity | intros c []].
  - destruct (isspace x) eqn:E.
    + exists (x :: l). split; [simpl; congruence |].
      intros c [<- | Hc]; [exact E | exact (Hl c Hc)].
    + exists []. split; [reflexivity | intros c []].
Qed.

Lemma rstrip_prefix (s : str) : exists r, s = rstrip s ++ r /\ blank r.
Proof.
  unfold rstrip. destruct (lstrip_suffix (rev s)) as (l & Hl & Hblank).
  exists (rev l). split.
  - rewrite <- rev_app_distr, <- Hl, rev_involutive. reflexivity.
  - intros c Hc. apply Hblank. apply in_rev. exact Hc.
Qed.

Lemma rstrip_head (s : str) (c : N) (t : str) :
  rstrip s = c :: t -> exists t', s = c :: t'.
Proof.
  intros H. destruct (rstrip_prefix s) as (r & Hs & _).
  rewrite H in Hs. simpl in Hs. eauto.
Qed.

Lemma split_join_with (sep : N) (s : str) : join_with sep (split sep s) = s.
Proof.
  induction s as [|c s IH]; simpl; [reflexivity |].
  destruct (c =? sep) eqn:E.
  - apply N.eqb_eq in E. subst c.
    destruct (split sep s) as [|p ps] eqn:Hsplit; simpl in *.
    + exfalso. destruct s as [|x s]; simpl in Hsplit; [discriminate |].
      destruct (x =? sep); [discriminate |].
      destruct (split sep s); discriminate.
    + rewrite IH. reflexivity.
  - destruct (split sep s) as [|p ps]; simpl in *; [congruence |].
    destruct ps; simpl in *; congruence.
Qed.

Lemma split_parts_no_sep (sep : N) (s : str) :
  forall p, In p (split sep s) -> ~ In sep p.
Proof.
  induction s as [|c s IH]; simpl.
  - intros p [<- | []] [].
  - destruct (c =? sep) eqn:E.
    + intros p [<- | Hp]; [intros [] | exact (IH p Hp)].
    + apply N.eqb_neq in E.
      destruct (split sep s) as [|q qs]; simpl in *.
      * intros p [<- | []] [H | []]. congruence.
      * intros p [<- | Hp].
        -- intros [H | H]; [congruence |].
           exact (IH q (or_introl eq_refl) H).
        -- exact (IH p (or_intror Hp)).
Qed.

Lemma split_no_sep (sep : N) (s : str) : ~ In sep s -> split sep s = [s].
Proof.
  induction s as [|c s IH]; simpl; [reflexivity |].
  intros H. destruct (c =? sep) eqn:E.
  - apply N.eqb_eq in E. exfalso. apply H. left. exact E.
  - rewrite IH by (intros Hin; apply H; right; exact Hin). reflexivity.
Qed.

Lemma split_app_sep (sep : N) (p t : str) :
  ~ In sep p -> split sep (p ++ sep :: t) = p :: split sep t.
Proof.
  induction p as [|c p IH]; simpl; intros H.
  - rewrite N.eqb_refl. reflexivity.
  - destruct (c =? sep) eqn:E.
    + apply N.eqb_eq in E. exfalso. apply H. left. exact E.
    + rewrite IH by (intros Hin; apply H; right; exact Hin). reflexivity.
Qed.

Lemma lstrip_id (s : str) :
  (forall c t, s = c :: t -> isspace c = false) -> lstrip s = s.
Proof.
  destruct s as [|x s]; [reflexivity |]. intros H. simpl.
  rewrite (H x s eq_refl). reflexivity.
Qed.

(** *** Decoding *)

Lemma utf8_decode_ascii (bs : list N) :
  (forall b, In b bs -> b < 128) -> utf8_decode bs = Some bs.
Proof.
  induction bs as [|b bs IH]; intros H; [reflexivity |].
  cbn [utf8_decode].
  assert (Hb : (b <? 128) = true)
    by (apply N.ltb_lt, H; left; reflexivity).
  rewrite Hb, IH by (intros b' Hb'; apply H; right; exact Hb').
  reflexivity.
Qed.

Lemma utf8_cont_bounds (b : N) : utf8_cont b = true -> 128 <= b <= 191.
Proof.
  unfold utf8_cont. rewrite andb_true_iff, !N.leb_le. tauto.
Qed.

Lemma utf8_decode_scalar_bounded (n : nat) :
  forall (bs : list N) (s : str),
    (length bs <= n)%nat ->
    utf8_decode bs = Some s ->
    forall c, In c s -> scalar_value c.
Proof.
  induction n as [|n IH]; intros bs s Hlen Hdec c Hc.
  - destruct bs; [| simpl in Hlen; lia].
    simpl in Hdec. injection Hdec as <-. destruct Hc.
  - destruct bs as [|b0 r0]; cbn [utf8_decode] in Hdec.
    { injection Hdec as <-. destruct Hc. }
    simpl in Hlen.
    destruct (b0 <? 128) eqn:E1.
    { apply fmap_Some in Hdec as (s' & Hs' & ->).
      destruct Hc as [<- | Hc].
      - apply N.ltb_lt in E1. unfold scalar_value. lia.
      - apply (IH r0 s'); [lia | exact Hs' | exact Hc]. }
    destruct ((194 <=? b0) && (b0 <=? 223)) eqn:E2.
    { destruct r0 as [|b1 r1]; [discriminate |].
      destruct (utf8_cont b1) eqn:C1; [| discriminate].
      apply fmap_Some in Hdec as (s' & Hs' & ->).
      destruct Hc as [<- | Hc].
      - apply andb_true_iff in E2 as [L U].
        apply N.leb_le in L, U. apply utf8_cont_bounds in C1.
        unfold scalar_value. lia.
      - apply (IH r1 s'); [simpl in Hlen; lia | exact Hs' | exact Hc]. }
    destruct ((224 <=? b0) && (b0 <=? 239)) eqn:E3.
    { destruct r0 as [|b1 [|b2 r2]]; try discriminate.
      cbv zeta in Hdec.
      destruct (utf8_cont b1 && utf8_cont b2
                && (2048 <=? (b0 - 224) * 4096 + (b1 - 128) * 64 + (b2 - 128))
                && negb ((55296 <=? (b0 - 224) * 4096 + (b1 - 128) * 64
                                     + (b2 - 128))
                         && ((b0 - 224) * 4096 + (b1 - 128) * 64 + (b2 - 128)
                             <=? 57343))) eqn:C; [| discriminate].
      apply fmap_Some in Hdec as (s' & Hs' & ->).
      destruct Hc as [<- | Hc].
      - apply andb_true_iff in C as [C Hsur].
        apply andb_true_iff in C as [C _].
        apply andb_true_iff in C as [C1 C2].
        apply utf8_cont_bounds in C1, C2.
        apply andb_true_iff in E3 as [L U]. apply N.leb_le in L, U.
        apply negb_true_iff, andb_false_iff in Hsur.
        rewrite !N.leb_gt in Hsur.
        unfold scalar_value. lia.
      - apply (IH r2 s'); [simpl in Hlen; lia | exact Hs' | exact Hc]. }
    destruct ((240 <=? b0) && (b0 <=? 244)) eqn:E4; [| discriminate].
    destruct r0 as [|b1 [|b2 [|b3 r3]]]; try discriminate.
    cbv zeta in Hdec.
    match type of Hdec with
    | (if ?cond then _ else _) = _ => destruct cond eqn:C; [| discriminate]
    end.
    apply fmap_Some in Hdec as (s' & Hs' & ->).
    destruct Hc as [<- | Hc].
    + apply andb_true_iff in C as [C U]. apply andb_true_iff in C as [_ L].
      apply N.leb_le in L, U. unfold scalar_value. lia.
    + apply (IH r3 s'); [simpl in Hlen; lia | exact Hs' | exact Hc].
Qed.

Lemma decode_scalar (b : list byte) (s : str) :
  decode b = Some s -> forall c, In c s -> scalar_value c.
Proof.
  unfold decode. intros H.
  exact (utf8_decode_scalar_bounded _ _ s (le_n _) H).
Qed.

Lemma decode_ascii (b : list byte) :
  (forall x, In x b -> Byte.to_N x < 128) ->
  decode b = Some (List.map Byte.to_N b).
Proof.
  intros H. unfold decode. apply utf8_decode_ascii.
  intros n Hn. apply in_map_iff in Hn as (x & <- & Hx). exact (H x Hx).
Qed.

(** *** Paths *)

Lemma drop_until_sep_none (b : str) : ~ In SEP b -> drop_until_sep b = [].
Proof.
  induction b as [|c b IH]; simpl; [reflexivity |].
  intros H. destruct (c =? SEP) eqn:E.
  - apply N.eqb_eq in E. exfalso. apply H. left. exact E.
  - apply IH. intros Hin. apply H. right. exact Hin.
Qed.

Lemma drop_until_sep_app (b t : str) :
  ~ In SEP b -> drop_until_sep (b ++ SEP :: t) = SEP :: t.
Proof.
  induction b as [|c b IH]; simpl; [reflexivity |].
  intros H. destruct (c =? SEP) eqn:E.
  - apply N.eqb_eq in E. exfalso. apply H. left. exact E.
  - apply IH. intros Hin. apply H. right. exact Hin.
Qed.

Lemma drop_seps_all (r : str) : (forall c, In c r -> c = SEP) -> drop_seps r = [].
Proof.
  induction r as [|c r IH]; simpl; [reflexivity |].
  intros H. rewrite (H c (or_introl eq_refl)). simpl.
  apply IH. intros c' Hc'. apply H. right. exact Hc'.
Qed.

Lemma drop_seps_nil (r : str) : drop_seps r = [] -> forall c, In c r -> c = SEP.
Proof.
  induction r as [|x r IH]; simpl; [intros _ c [] |].
  destruct (x =? SEP) eqn:E; [| discriminate].
  apply N.eqb_eq in E. intros H c [<- | Hc]; [exact E | exact (IH H c Hc)].
Qed.

Lemma drop_seps_head (r : str) (c : N) (t : str) :
  drop_seps r = c :: t -> (c =? SEP) = false.
Proof.
  induction r as [|x r IH]; simpl; [discriminate |].
  destruct (x =? SEP) eqn:E; [exact IH |].
  intros H. injection H as <- _. exact E.
Qed.

Lemma startswith_sep_no_sep (b : str) : ~ In SEP b -> startswith_sep b = false.
Proof.
  destruct b as [|c b]; [reflexivity |]. simpl. intros H.
  apply N.eqb_neq. intros E. apply H. left. exact E.
Qed.

Lemma rev_swap {A} (l m : list A) : rev l = m -> rev m = l.
Proof. intros <-. apply rev_involutive. Qed.

(** [dirname] undoes [join] of one component without a slash, on a path
    that is [normal]. *)
Lemma dirname_join2 (a b : str) :
  ~ In SEP b -> normal a -> dirname (join2 a b) = a.
Proof.
  intros Hb Ha. unfold join2. rewrite (startswith_sep_no_sep b Hb).
  assert (Hrb : ~ In SEP (rev b)) by (rewrite <- in_rev; exact Hb).
  destruct a as [|x a].
  { unfold dirname. rewrite (drop_until_sep_none _ Hrb). reflexivity. }
  unfold dirname. destruct (endswith_sep (x :: a)) eqn:E.
  - destruct Ha as [Ha | Ha]; [congruence |].
    rewrite rev_app_distr.
    unfold endswith_sep in E.
    destruct (rev (x :: a)) as [|y r] eqn:Hrev; [discriminate |].
    simpl in E. apply N.eqb_eq in E. subst y.
    rewrite (drop_until_sep_app _ r Hrb).
    assert (Hall : forall c, In c (SEP :: r) -> c = SEP).
    { intros c Hc. apply Ha. apply in_rev. rewrite Hrev. exact Hc. }
    rewrite (drop_seps_all _ Hall).
    exact (rev_swap _ _ Hrev).
  - rewrite !rev_app_distr. simpl rev at 2. rewrite <- app_assoc.
    change ([SEP] ++ rev (x :: a)) with (SEP :: rev (x :: a)).
    rewrite (drop_until_sep_app _ _ Hrb).
    unfold endswith_sep in E.
    destruct (rev (x :: a)) as [|y r] eqn:Hrev.
    { apply (f_equal (@length N)) in Hrev. rewrite length_rev in Hrev.
      discriminate. }
    simpl in E. cbn [drop_seps]. rewrite N.eqb_refl, E.
    exact (rev_swap _ _ Hrev).
Qed.

Lemma dirname_normal (p : str) : normal (dirname p).
Proof.
  unfold dirname.
  destruct (drop_seps (drop_until_sep (rev p))) as [|c t] eqn:E.
  - right. intros c Hc. apply in_rev in Hc.
    exact (drop_seps_nil _ E c Hc).
  - left. unfold endswith_sep. rewrite rev_involutive. simpl.
    exact (drop_seps_head _ _ _ E).
Qed.

Lemma join2_not_endswith_sep (a b : str) (c : N) (b' : str) :
  ~ In SEP b -> rev b = c :: b' -> endswith_sep (join2 a b) = false.
Proof.
  intros Hb Hrev. unfold join2. rewrite (startswith_sep_no_sep b Hb).
  assert (Hc : (c =? SEP) = false).
  { apply N.eqb_neq. intros ->. apply Hb. apply in_rev. rewrite Hrev.
    left. reflexivity. }
  unfold endswith_sep.
  destruct a as [|x a]; [rewrite Hrev; exact Hc |].
  destruct (startswith_sep (rev (x :: a)));
    rewrite !rev_app_distr, Hrev; exact Hc.
Qed.

(** ** More on the image builder *)

Lemma check_call_run (w : world) (c : command) (fs : gmap str file) :
  returncode (w c) = 0%Z -> check_call w c fs = Outcome (inr tt) fs [Run c].
Proof.
  intros H. unfold check_call, bind, emit. simpl.
  destruct (decide (returncode (w c) = 0%Z)); [reflexivity | contradiction].
Qed.

Lemma check_call_fail (w : world) (c : command) (fs : gmap str file) :
  returncode (w c) <> 0%Z ->
  check_call w c fs
  = Outcome (inl (CalledProcessError c (returncode (w c)))) fs [Run c].
Proof.
  intros H. unfold check_call, bind, emit. simpl.
  destruct (decide (returncode (w c) = 0%Z)); [contradiction | reflexivity].
Qed.

Lemma path_changed_fail (w : world) (paths : paths_arg) (range : str)
    (fs : gmap str file) :
  returncode (w (cmd (git_diff_argv (as_list paths) range))) <> 0%Z ->
  path_changed w paths range fs
  = Outcome
      (inl (CalledProcessError (cmd (git_diff_argv (as_list paths) range))
              (returncode (w (cmd (git_diff_argv (as_list paths) range))))))
      fs [Run (cmd (git_diff_argv (as_list paths) range))].
Proof.
  intros H. unfold path_changed.
  apply bind_raise. apply check_output_fail. exact H.
Qed.

(** An iteration that is not skipped is the change check, if there is
    one, then the build. *)
Lemma build_image_not_skipped (B : str) (w : world) (prefix : str)
    (range : option str) (push : bool) (image : str) (fs : gmap str file) :
  not_skipped B w range ->
  build_image B w prefix range push image fs
  = let o := build_and_push B w prefix push image fs in
    Outcome (result o) (files o) (consulted B range ++ trace o).
Proof.
  intros Hgo. destruct range as [[|c r]|].
  - rewrite build_image_empty_range, build_image_no_range.
    symmetry. apply outcome_eta.
  - destruct Hgo as (s & Hdiff & Hs).
    assert (Hr : c :: r <> []) by discriminate.
    exact (build_image_changed B w prefix (c :: r) s push image fs
             Hr Hdiff Hs).
  - rewrite build_image_no_range. symmetry. apply outcome_eta.
Qed.

Lemma build_and_push_ok (B : str) (w : world) (prefix v : str) (push : bool)
    (image : str) (fs : gmap str file) :
  log_answers w (IMAGE_FILES B) v ->
  returncode (w (build_command B prefix v image)) = 0%Z ->
  (push = true -> returncode (w (push_command prefix v image)) = 0%Z) ->
  build_and_push B w prefix push image fs
  = Outcome (inr tt) fs
      ([Run (cmd (git_log_argv (IMAGE_FILES B)));
        Run (build_command B prefix v image)]
       ++ (if push then [Run (push_command prefix v image)] else [])).
Proof.
  intros Hlog Hbuild Hpush. unfold build_and_push.
  rewrite (bind_run _ _ _ _ _ _
             (last_git_modified_ok w (Paths (IMAGE_FILES B)) v fs Hlog)).
  fold (build_command B prefix v image). fold (push_command prefix v image).
  rewrite (bind_run _ _ _ _ _ _ (check_call_run w _ fs Hbuild)).
  destruct push; [| reflexivity].
  rewrite (check_call_run w _ fs (Hpush eq_refl)). reflexivity.
Qed.

Lemma build_and_push_build_fails (B : str) (w : world) (prefix v : str)
    (push : bool) (image : str) (fs : gmap str file) :
  log_answers w (IMAGE_FILES B) v ->
  returncode (w (build_command B prefix v image)) <> 0%Z ->
  build_and_push B w prefix push image fs
  = Outcome
      (inl (CalledProcessError (build_command B prefix v image)
              (returncode (w (build_command B prefix v image)))))
      fs
      [Run (cmd (git_log_argv (IMAGE_FILES B)));
       Run (build_command B prefix v image)].
Proof.
  intros Hlog Hbuild. unfold build_and_push.
  rewrite (bind_run _ _ _ _ _ _
             (last_git_modified_ok w (Paths (IMAGE_FILES B)) v fs Hlog)).
  fold (build_command B prefix v image).
  rewrite (bind_raise _ _ _ _ _ _ (check_call_fail w _ fs Hbuild)).
  reflexivity.
Qed.

Lemma build_and_push_push_fails (B : str) (w : world) (prefix v : str)
    (image : str) (fs : gmap str file) :
  log_answers w (IMAGE_FILES B) v ->
  returncode (w (build_command B prefix v image)) = 0%Z ->
  returncode (w (push_command prefix v image)) <> 0%Z ->
  build_and_push B w prefix true image fs
  = Outcome
      (inl (CalledProcessError (push_command prefix v image)
              (returncode (w (push_command prefix v image)))))
      fs
      [Run (cmd (git_log_argv (IMAGE_FILES B)));
       Run (build_command B prefix v image);
       Run (push_command prefix v image)].
Proof.
  intros Hlog Hbuild Hpush. unfold build_and_push.
  rewrite (bind_run _ _ _ _ _ _
             (last_git_modified_ok w (Paths (IMAGE_FILES B)) v fs Hlog)).
  fold (build_command B prefix v image). fold (push_command prefix v image).
  rewrite (bind_run _ _ _ _ _ _ (check_call_run w _ fs Hbuild)).
  rewrite (check_call_fail w _ fs Hpush). reflexivity.
Qed.

(** ** More on mappings and the manifest updater *)

Lemma assoc_set_keys (k : str) (v x : yaml) (m : list (str * yaml)) :
  assoc_get k m = Some x -> List.map fst (assoc_set k v m) = List.map fst m.
Proof.
  induction m as [|[k' v'] m IH]; simpl; [discriminate |].
  destruct (decide (k = k')); [reflexivity |].
  intros H. simpl. rewrite IH by exact H. reflexivity.
Qed.

Lemma assoc_set_new_key (k : str) (v : yaml) (m : list (str * yaml)) :
  assoc_get k m = None ->
  List.map fst (assoc_set k v m) = List.map fst m ++ [k].
Proof.
  induction m as [|[k' v'] m IH]; simpl; [reflexivity |].
  destruct (decide (k = k')); [discriminate |].
  intros H. simpl. rewrite IH by exact H. reflexivity.
Qed.

(** A computation whose first step writes no file and whose rest writes
    none when it raises, writes none when it raises. *)
Lemma raise_bind {A B} (m : M A) (f : A -> M B) (fs : gmap str file) :
  files (m fs) = fs ->
  (forall a e, result (f a fs) = inl e -> files (f a fs) = fs) ->
  forall e, result (bind m f fs) = inl e -> files (bind m f fs) = fs.
Proof.
  intros Hm Hf e. unfold bind.
  destruct (result (m fs)) as [e'|a] eqn:E; simpl; [intros _; exact Hm |].
  rewrite Hm. intros H. exact (Hf a e H).
Qed.

Lemma build_values_raise (B : str) (w : world) (prefix : str)
    (fs : gmap str file) (e : exn) :
  result (build_values B w prefix fs) = inl e ->
  files (build_values B w prefix fs) = fs.
Proof.
  unfold build_values. apply raise_bind; [apply load_files |].
  intros values. apply raise_bind; [apply lift_files |].
  intros values1. apply raise_bind; [apply last_git_modified_files |].
  intros tag. apply raise_bind; [apply lift_files |].
  intros values2 e' H. discriminate H.
Qed.

Lemma build_chart_raise (B : str) (w : world) (fs : gmap str file) (e : exn) :
  result (build_chart B w fs) = inl e -> files (build_chart B w fs) = fs.
Proof.
  unfold build_chart. apply raise_bind; [apply last_git_modified_files |].
  intros version. apply raise_bind; [apply load_files |].
  intros chart.
  do 5 (apply raise_bind; [apply lift_files | intros ?]).
  intros e' H. discriminate H.
Qed.

Lemma last_git_modified_fail (w : world) (paths : paths_arg)
    (fs : gmap str file) :
  returncode (w (cmd (git_log_argv (as_list paths)))) <> 0%Z ->
  last_git_modified w paths fs
  = Outcome
      (inl (CalledProcessError (cmd (git_log_argv (as_list paths)))
              (returncode (w (cmd (git_log_argv (as_list paths)))))))
      fs [Run (cmd (git_log_argv (as_list paths)))].
Proof.
  intros H. unfold last_git_modified.
  apply bind_raise. apply check_output_fail. exact H.
Qed.

Lemma bind_lift_raise {A B} (r : exn + A) (f : A -> M B) fs e :
  r = inl e -> bind (lift r) f fs = Outcome (inl e) fs [].
Proof. intros ->. reflexivity. Qed.

Lemma load_missing (w : world) (path : str) (fs : gmap str file) :
  fs !! path = None ->
  load w path fs = Outcome (inl (FileNotFoundError path)) fs [].
Proof. intros H. unfold load. rewrite H. reflexivity. Qed.

(** [yaml.load] raises on the file. *)
Lemma load_raises (w : world) (path : str) (f : file) (e : exn)
    (fs : gmap str file) :
  fs !! path = Some f -> read w f = inl e ->
  load w path fs = Outcome (inl e) fs [].
Proof. intros H Hf. unfold load. rewrite H, Hf. reflexivity. Qed.

Lemma getitem_not_mapping (doc : yaml) (k : str) :
  (forall m, doc <> YMap m) -> getitem doc k = inl TypeError.
Proof.
  destruct doc; try reflexivity. intros H. exfalso. exact (H m eq_refl).
Qed.

Lemma setitem_not_mapping (doc : yaml) (k : str) (v : yaml) :
  (forall m, doc <> YMap m) -> setitem doc k v = inl TypeError.
Proof.
  destruct doc; try reflexivity. intros H. exfalso. exact (H m eq_refl).
Qed.

Lemma method_split_not_string (o : yaml) (sep : N) :
  (forall s, o <> YStr s) -> method_split o sep = inl AttributeError.
Proof.
  destruct o; try reflexivity. intros H. exfalso. exact (H s eq_refl).
Qed.

(** ** More on the publisher and on [main] *)

Lemma outcome_raise {A} (o : outcome A) (e : exn) :
  result o = inl e -> o = Outcome (inl e) (files o) (trace o).
Proof. destruct o; simpl; intros ->; reflexivity. Qed.

Lemma outcome_return {A} (o : outcome A) (a : A) :
  result o = inr a -> o = Outcome (inr a) (files o) (trace o).
Proof. destruct o; simpl; intros ->; reflexivity. Qed.

Lemma bind_assoc {A B C} (m : M A) (f : A -> M B) (g : B -> M C) fs :
  bind (bind m f) g fs = bind m (fun a => bind (f a) g) fs.
Proof.
  unfold bind. destruct (result (m fs)) as [e|a]; simpl; [reflexivity |].
  destruct (result (f a (files (m fs)))) as [e|b]; simpl; [reflexivity |].
  rewrite app_assoc. reflexivity.
Qed.

Lemma bind_ext {A B} (m : M A) (f g : A -> M B) fs :
  (forall a fs', f a fs' = g a fs') -> bind m f fs = bind m g fs.
Proof.
  intros H. unfold bind.
  destruct (result (m fs)) as [e|a]; [reflexivity |]. rewrite H. reflexivity.
Qed.

Lemma check_calls_ok (w : world) (cs : list command) (fs : gmap str file) :
  (forall c, In c cs -> returncode (w c) = 0%Z) ->
  check_calls w cs fs = Outcome (inr tt) fs (List.map Run cs).
Proof.
  induction cs as [|c cs IH]; intros H; [reflexivity |].
  cbn [check_calls List.map].
  rewrite (bind_run _ _ _ _ _ _
             (check_call_run w c fs (H c (or_introl eq_refl)))).
  rewrite IH by (intros c' Hc'; apply H; right; exact Hc').
  reflexivity.
Qed.

Lemma check_calls_fail (w : world) (pre : list command) (c : command)
    (post : list command) (fs : gmap str file) :
  (forall c', In c' pre -> returncode (w c') = 0%Z) ->
  returncode (w c) <> 0%Z ->
  check_calls w (pre ++ c :: post) fs
  = Outcome (inl (CalledProcessError c (returncode (w c)))) fs
      (List.map Run (pre ++ [c])).
Proof.
  intros Hpre Hc. induction pre as [|p pre IH]; cbn [check_calls app List.map].
  - exact (bind_raise _ _ _ _ _ _ (check_call_fail w c fs Hc)).
  - rewrite (bind_run _ _ _ _ _ _
               (check_call_run w p fs (Hpre p (or_introl eq_refl)))).
    rewrite IH by (intros c' Hc'; apply Hpre; right; exact Hc').
    reflexivity.
Qed.

(** [main build] is the three stages, then the publisher with [--push]. *)
Lemma main_build (B : str) (w : world) (prefix : str) (range : option str)
    (pushing : bool) (fs : gmap str file) :
  main B w (Args prefix (Some (py "build")) range pushing) fs
  = (build_stage B w prefix range pushing ;;;
     if pushing then publish_pages B w else ret tt) fs.
Proof.
  unfold main, build_stage.
  cbn [action image_prefix commit_range push].
  destruct (decide (Some (py "build") = Some (py "build")));
    [| contradiction].
  rewrite bind_assoc. apply bind_ext. intros _ fs1.
  symmetry. apply bind_assoc.
Qed.

Lemma main_unfold (B : str) (w : world) (prefix : str) (range : option str)
    (pushing : bool) (fs : gmap str file) :
  main B w (Args prefix (Some (py "build")) range pushing) fs
  = (build_images B w prefix [py "binderhub"] range pushing ;;;
     build_values B w prefix ;;;
     chart_version <- build_chart B w ;;
     if pushing then publish_pages B w else ret tt) fs.
Proof.
  unfold main. cbn [action image_prefix commit_range push].
  destruct (decide (Some (py "build") = Some (py "build")));
    [reflexivity | contradiction].
Qed.

Lemma stage_event_build (B : str) (e : event) :
  build_stage_event B e -> stage_event B e.
Proof. intros H. left. exact H. Qed.

Lemma build_image_stage_trace (B : str) (w : world) (prefix : str)
    (range : option str) (pushing : bool) (image : str)
    (fs : gmap str file) :
  Forall (stage_event B)
    (trace (build_image B w prefix range pushing image fs)).
Proof.
  unfold build_image. apply trace_bind.
  - destruct range as [[|c r]|]; [constructor | | constructor].
    apply trace_bind.
    + rewrite path_changed_trace. constructor; [| constructor].
      left. simpl. left. eauto.
    + intros changed fs'. destruct changed; simpl.
      * constructor.
      * constructor; [left; exact I | constructor].
  - intros skip fs'. destruct skip; [constructor |].
    apply trace_bind.
    + rewrite last_git_modified_trace. constructor; [| constructor].
      left. simpl. right. left. reflexivity.
    + intros tag fs''. apply trace_bind.
      * rewrite check_call_trace. constructor; [| constructor].
        left. simpl. right. right. right. eauto.
      * intros _ fs3. destruct pushing; [| constructor].
        rewrite check_call_trace. constructor; [| constructor].
        right. eexists. split; [reflexivity |]. eexists. reflexivity.
Qed.

Lemma build_stage_trace (B : str) (w : world) (prefix : str)
    (range : option str) (pushing : bool) (fs : gmap str file) :
  Forall (stage_event B) (trace (build_stage B w prefix range pushing fs)).
Proof.
  unfold build_stage. apply trace_bind.
  - cbn [build_images]. apply trace_bind.
    + apply build_image_stage_trace.
    + intros _ fs'. constructor.
  - intros _ fs1. apply trace_bind.
    + eapply List.Forall_impl; [| apply build_values_trace].
      apply stage_event_build.
    + intros _ fs2.
      eapply List.Forall_impl; [| apply build_chart_trace].
      apply stage_event_build.
Qed.

(** The question [publish_pages] asks first is no event of the three
    stages. *)
Lemma publish_question_not_stage (B : str) :
  ~ stage_event B (Run (cmd (git_log_argv [py "."]))).
Proof.
  intros [H | (c & Hc & Hpush)].
  - apply (build_stage_not_publish B _ H). left. reflexivity.
  - injection Hc as <-. destruct Hpush as [rest Hrest].
    vm_compute in Hrest. discriminate Hrest.
Qed.

(** An iteration that is not skipped and whose commands succeed. *)
Lemma build_image_ok (B : str) (w : world) (prefix v : str)
    (range : option str) (push : bool) (image : str) (fs : gmap str file) :
  not_skipped B w range ->
  log_answers w (IMAGE_FILES B) v ->
  returncode (w (build_command B prefix v image)) = 0%Z ->
  (push = true -> returncode (w (push_command prefix v image)) = 0%Z) ->
  build_image B w prefix range push image fs
  = Outcome (inr tt) fs (image_events B prefix v range push image).
Proof.
  intros Hgo Hlog Hbuild Hpush.
  rewrite (build_image_not_skipped B w prefix range push image fs Hgo).
  rewrite (build_and_push_ok B w prefix v push image fs Hlog Hbuild Hpush).
  reflexivity.
Qed.

(** ** Where a run starts *)

Lemma bind_trace_prefix {A B} (m : M A) (f : A -> M B) fs :
  exists rest, trace (bind m f fs) = trace (m fs) ++ rest.
Proof.
  unfold bind. destruct (result (m fs)) as [e|a]; simpl.
  - exists []. symmetry. apply app_nil_r.
  - eauto.
Qed.

(** [build_images] starts with its first image: unless it is skipped, it
    asks [git log] and runs [docker build] for it. *)
Lemma build_images_first (B : str) (w : world) (prefix v : str)
    (range : option str) (push : bool) (image : str) (images : list str)
    (fs : gmap str file) :
  log_answers w (IMAGE_FILES B) v ->
  not_skipped B w range ->
  exists rest,
    trace (build_images B w prefix (image :: images) range push fs)
    = consulted B range
      ++ [Run (cmd (git_log_argv (IMAGE_FILES B)));
          Run (cmd (docker_build_argv (prefix ++ image ++ py ":" ++ v) v
                      (join B [py "images"; image])))]
      ++ rest.
Proof.
  intros Hlog Hgo. cbn [build_images].
  destruct (bind_trace_prefix (build_image B w prefix range push image)
              (fun _ => build_images B w prefix images range push) fs)
    as [rest1 ->].
  destruct (build_image_builds B w prefix v range push image fs Hlog Hgo)
    as [rest2 ->].
  exists (rest2 ++ rest1). rewrite <- !app_assoc. reflexivity.
Qed.

(** [main build] starts with [build_images] on the image [binderhub]. *)
Lemma main_first (B : str) (w : world) (prefix : str) (range : option str)
    (pushing : bool) (fs : gmap str file) :
  exists rest,
    trace (main B w (Args prefix (Some (py "build")) range pushing) fs)
    = trace (build_images B w prefix [py "binderhub"] range pushing fs)
      ++ rest.
Proof. rewrite main_unfold. apply bind_trace_prefix. Qed.

(** When [build_images] has returned, [main] stamps the two manifests,
    whatever the range and whether the image was built or skipped. *)
Lemma main_after_images (B : str) (w : world) (prefix : str)
    (range : option str) (pushing : bool) (fs : gmap str file)
    (values image chart : list (str * yaml)) (old t v : str) :
  result (build_images B w prefix [py "binderhub"] range pushing fs)
  = inr tt ->
  log_answers w (IMAGE_FILES B) t ->
  log_answers w ([B] ++ IMAGE_FILES B) v ->
  reads w fs (values_yaml B) (YMap values) ->
  assoc_get (py "image") values = Some (YMap image) ->
  reads w fs (chart_yaml B) (YMap chart) ->
  assoc_get (py "version") chart = Some (YStr old) ->
  main B w (Args prefix (Some (py "build")) range pushing) fs
  = let fs' :=
      <[chart_yaml B :=
          Dumped (YMap (assoc_set (py "version")
                          (YStr (before_first 45 old ++ py "-" ++ v))
                          chart))]>
        (<[values_yaml B :=
             Dumped (YMap (assoc_set (py "image")
                             (YMap (assoc_set (py "tag") (YStr t)
                                      (assoc_set (py "name")
                                         (YStr (prefix ++ NAME)) image)))
                             values))]> fs) in
    let o' := (if pushing then publish_pages B w else ret tt) fs' in
    Outcome (result o') (files o')
      (trace (build_images B w prefix [py "binderhub"] range pushing fs)
       ++ [Run (cmd (git_log_argv (IMAGE_FILES B)))]
       ++ [Run (cmd (git_log_argv ([B] ++ IMAGE_FILES B)))]
       ++ trace o').
Proof.
  intros Himages Ht Hv Hvalues Himage Hchart Hver.
  pose proof (values_yaml_not_chart_yaml B) as Hne.
  apply outcome_return in Himages.
  rewrite build_images_files in Himages.
  rewrite main_unfold.
  rewrite (bind_run _ _ _ _ _ _ Himages).
  rewrite (bind_run _ _ _ _ _ _
             (build_values_run B w prefix fs values image t Ht
                Hvalues Himage)).
  apply (reads_insert_ne w fs (values_yaml B) (chart_yaml B)
           (Dumped (YMap (assoc_set (py "image")
                            (YMap (assoc_set (py "tag") (YStr t)
                                     (assoc_set (py "name")
                                        (YStr (prefix ++ NAME)) image)))
                            values)))
           (YMap chart) Hne) in Hchart.
  rewrite (bind_run _ _ _ _ _ _
             (build_chart_run B w _ chart old v Hv Hchart Hver)).
  reflexivity.
Qed.

(** When [git diff] succeeds, [path_changed] returns true if and only if
    its output holds a character that is not white space. *)
Lemma path_changed_iff_output (w : world) (paths : paths_arg)
    (range s : str) (fs : gmap str file) :
  diff_answers w (as_list paths) range s ->
  exists b : bool,
    path_changed w paths range fs
    = Outcome (inr b) fs [Run (cmd (git_diff_argv (as_list paths) range))]
    /\ (b = true <-> strip s <> [])
    /\ (b = true <-> exists c, In c s /\ isspace c = false).
Proof.
  intros Hdiff. rewrite (path_changed_ok w paths range s fs Hdiff).
  eexists. split; [reflexivity |].
  rewrite <- strip_not_nil.
  assert (H : negb (bool_decide (strip s = [])) = true <-> strip s <> []).
  { rewrite negb_true_iff, bool_decide_eq_false. reflexivity. }
  split; exact H.
Qed.

(** * The claims of the specification *)

(** C1.  [build_chart] writes back, as the version of the chart, what stood
    before the first hyphen of the old version, then a hyphen, then the
    identifier [last_git_modified] returned; what stands before the first
    hyphen is the same before and after.  At old version "1.2.3-abc123"
    and identifier "def456" this is "1.2.3-def456". *)
Theorem build_chart_stamps_version (B : str) (w : world)
    (fs : gmap str file) (chart : list (str * yaml)) (old v : str) :
  log_answers w ([B] ++ IMAGE_FILES B) v ->
  reads w fs (chart_yaml B) (YMap chart) ->
  assoc_get (py "version") chart = Some (YStr old) ->
  exists chart',
    files (build_chart B w fs) !! chart_yaml B = Some (Dumped (YMap chart'))
    /\ assoc_get (py "version") chart'
       = Some (YStr (before_first 45 old ++ py "-" ++ v))
    /\ before_first 45 (before_first 45 old ++ py "-" ++ v)
       = before_first 45 old.
Proof.
  intros Hlog Hfile Hver.
  rewrite (build_chart_run B w fs chart old v Hlog Hfile Hver). simpl.
  eexists. split; [apply lookup_insert_eq |].
  split; [apply assoc_get_set_eq |].
  apply (before_first_app 45 old v).
Qed.

Lemma build_chart_stamps_version_witness :
  exists chart',
    files (build_chart B0 w0 fs0) !! chart_yaml B0
    = Some (Dumped (YMap chart'))
    /\ assoc_get (py "version") chart' = Some (YStr (py "1.2.3-def456"))
    /\ before_first 45 (py "1.2.3-def456") = py "1.2.3".
Proof.
  apply (build_chart_stamps_version B0 w0 fs0 chart0
           (py "1.2.3-abc123") (py "def456")).
  - split; vm_compute; reflexivity.
  - exists (Parsed (YMap chart0)).
    split; [vm_compute; reflexivity | reflexivity].
  - reflexivity.
Defined.

(** C2.  [build_chart] returns the version the chart metadata document held
    before the update: on a document whose version is the string [old] it
    returns [old], and whatever it returns is the [version] field of the
    document it read. *)
Theorem build_chart_returns_old_version (B : str) (w : world)
    (fs : gmap str file) :
  (forall (chart : list (str * yaml)) (old v : str),
      log_answers w ([B] ++ IMAGE_FILES B) v ->
      reads w fs (chart_yaml B) (YMap chart) ->
      assoc_get (py "version") chart = Some (YStr old) ->
      result (build_chart B w fs) = inr (YStr old))
  /\ (forall r : yaml,
         result (build_chart B w fs) = inr r ->
         exists doc, reads w fs (chart_yaml B) doc
                     /\ getitem doc (py "version") = inr r).
Proof.
  split.
  - intros chart old v Hlog Hfile Hver.
    rewrite (build_chart_run B w fs chart old v Hlog Hfile Hver). reflexivity.
  - intros r. apply build_chart_returns_field.
Qed.

Lemma build_chart_returns_old_version_witness :
  result (build_chart B0 w0 fs0) = inr (YStr (py "1.2.3-abc123"))
  /\ exists doc, reads w0 fs0 (chart_yaml B0) doc
                 /\ getitem doc (py "version")
                    = inr (YStr (py "1.2.3-abc123")).
Proof.
  destruct (build_chart_returns_old_version B0 w0 fs0) as [Hold Hfield].
  assert (H : result (build_chart B0 w0 fs0) = inr (YStr (py "1.2.3-abc123"))).
  { apply (Hold chart0 (py "1.2.3-abc123") (py "def456")).
    - split; vm_compute; reflexivity.
    - exists (Parsed (YMap chart0)).
      split; [vm_compute; reflexivity | reflexivity].
    - reflexivity. }
  split; [exact H | exact (Hfield _ H)].
Defined.

(** C3.  With a commit range [r] over which [git diff] reports nothing for
    the image files, [build_images] runs the change check and prints the
    message for each image, and nothing else: no [docker] command, no tag,
    no file written.  Without a commit range [build_images] asks no
    [git diff]: it starts with [git log] on the image files and
    [docker build] of its first image, whatever the commands answer after
    that; when the [docker] commands succeed it builds every image in turn;
    and [main] starts the same way.  (The range is supplied when
    [if commit_range:] holds, that is when it is not the empty string.) *)
Theorem build_images_skip_policy (B : str) (w : world) (prefix : str)
    (push : bool) (fs : gmap str file) :
  (forall (images : list str) (r s : str),
      r <> [] ->
      diff_answers w (IMAGE_FILES B) r s ->
      strip s = [] ->
      build_images B w prefix images (Some r) push fs
      = Outcome (inr tt) fs
          (flat_map (fun image =>
                       [Run (cmd (git_diff_argv (IMAGE_FILES B) r));
                        Print (py "Skipping " ++ image
                               ++ py ", not touched in " ++ r)]) images))
  /\ (forall (image v : str),
         log_answers w (IMAGE_FILES B) v ->
         exists rest,
           trace (build_image B w prefix None push image fs)
           = [Run (cmd (git_log_argv (IMAGE_FILES B)));
              Run (cmd (docker_build_argv (prefix ++ image ++ py ":" ++ v) v
                          (join B [py "images"; image])))]
             ++ rest)
  /\ (forall (image : str) (images : list str) (v : str),
         log_answers w (IMAGE_FILES B) v ->
         exists rest,
           trace (build_images B w prefix (image :: images) None push fs)
           = [Run (cmd (git_log_argv (IMAGE_FILES B)));
              Run (cmd (docker_build_argv (prefix ++ image ++ py ":" ++ v) v
                          (join B [py "images"; image])))]
             ++ rest)
  /\ (forall (images : list str) (v : str),
         log_answers w (IMAGE_FILES B) v ->
         (forall image, In image images ->
            returncode (w (build_command B prefix v image)) = 0%Z
            /\ (push = true ->
                returncode (w (push_command prefix v image)) = 0%Z)) ->
         build_images B w prefix images None push fs
         = Outcome (inr tt) fs
             (flat_map
                (fun image =>
                   [Run (cmd (git_log_argv (IMAGE_FILES B)));
                    Run (cmd (docker_build_argv
                                (prefix ++ image ++ py ":" ++ v) v
                                (join B [py "images"; image])))]
                   ++ (if push
                       then [Run (cmd (docker_push_argv
                                         (prefix ++ image ++ py ":" ++ v)))]
                       else []))
                images))
  /\ (forall v : str,
         log_answers w (IMAGE_FILES B) v ->
         exists rest,
           trace (main B w (Args prefix (Some (py "build")) None push) fs)
           = [Run (cmd (git_log_argv (IMAGE_FILES B)));
              Run (cmd (docker_build_argv
                          (prefix ++ py "binderhub" ++ py ":" ++ v) v
                          (join B [py "images"; py "binderhub"])))]
             ++ rest).
Proof.
  split; [| split; [| split; [| split]]].
  - intros images r s Hr Hdiff Hs.
    exact (build_images_skip B w prefix r s push images fs Hr Hdiff Hs).
  - intros image v Hlog.
    exact (build_image_builds B w prefix v None push image fs Hlog I).
  - intros image images v Hlog.
    exact (build_images_first B w prefix v None push image images fs Hlog I).
  - intros images v Hlog. induction images as [|image images IH]; intros Hok.
    + reflexivity.
    + cbn [build_images flat_map].
      destruct (Hok image (or_introl eq_refl)) as [Hbuild Hpush].
      rewrite (bind_run _ _ _ _ _ _
                 (build_image_ok B w prefix v None push image fs
                    I Hlog Hbuild Hpush)).
      rewrite IH by (intros i Hi; apply Hok; right; exact Hi).
      reflexivity.
  - intros v Hlog.
    destruct (main_first B w prefix None push fs) as [rest1 ->].
    destruct (build_images_first B w prefix v None push (py "binderhub") []
                fs Hlog I) as [rest2 ->].
    exists (rest2 ++ rest1). reflexivity.
Qed.

Lemma build_images_skip_policy_witness :
  build_images B0 w0 (py "acme/k8s-") [py "binderhub"]
    (Some (py "HEAD~1..HEAD")) false fs0
  = Outcome (inr tt) fs0
      [Run (cmd (git_diff_argv (IMAGE_FILES B0) (py "HEAD~1..HEAD")));
       Print (py "Skipping binderhub, not touched in HEAD~1..HEAD")]
  /\ (exists rest,
        trace (build_image B0 w0 (py "acme/k8s-") None false
                 (py "binderhub") fs0)
        = [Run (cmd (git_log_argv (IMAGE_FILES B0)));
           Run (cmd [py "docker"; py "build"; py "-t";
                     py "acme/k8s-binderhub:abc1234";
                     py "--build-arg"; py "BINDERHUB_VERSION=abc1234";
                     py "/repo/helm-chart/images/binderhub"])]
          ++ rest)
  /\ (exists rest,
        trace (build_images B0 w0 (py "acme/k8s-")
                 [py "binderhub"; py "other"] None false fs0)
        = [Run (cmd (git_log_argv (IMAGE_FILES B0)));
           Run (cmd [py "docker"; py "build"; py "-t";
                     py "acme/k8s-binderhub:abc1234";
                     py "--build-arg"; py "BINDERHUB_VERSION=abc1234";
                     py "/repo/helm-chart/images/binderhub"])]
          ++ rest)
  /\ build_images B0 w0 (py "acme/k8s-") [py "binderhub"; py "other"] None
       false fs0
     = Outcome (inr tt) fs0
         [Run (cmd (git_log_argv (IMAGE_FILES B0)));
          Run (cmd [py "docker"; py "build"; py "-t";
                    py "acme/k8s-binderhub:abc1234";
                    py "--build-arg"; py "BINDERHUB_VERSION=abc1234";
                    py "/repo/helm-chart/images/binderhub"]);
          Run (cmd (git_log_argv (IMAGE_FILES B0)));
          Run (cmd [py "docker"; py "build"; py "-t";
                    py "acme/k8s-other:abc1234";
                    py "--build-arg"; py "BINDERHUB_VERSION=abc1234";
                    py "/repo/helm-chart/images/other"])]
  /\ (exists rest,
        trace (main B0 w0
                 (Args (py "acme/k8s-") (Some (py "build")) None false) fs0)
        = [Run (cmd (git_log_argv (IMAGE_FILES B0)));
           Run (cmd [py "docker"; py "build"; py "-t";
                     py "acme/k8s-binderhub:abc1234";
                     py "--build-arg"; py "BINDERHUB_VERSION=abc1234";
                     py "/repo/helm-chart/images/binderhub"])]
          ++ rest).
Proof.
  assert (Hlog : log_answers w0 (IMAGE_FILES B0) (py "abc1234"))
    by (split; vm_compute; reflexivity).
  destruct (build_images_skip_policy B0 w0 (py "acme/k8s-") false fs0)
    as (Hskip & Hbody & Hfirst & Hall & Hmain).
  split; [| split; [| split; [| split]]].
  - apply (Hskip [py "binderhub"] (py "HEAD~1..HEAD") []).
    + discriminate.
    + split; vm_compute; reflexivity.
    + reflexivity.
  - exact (Hbody (py "binderhub") (py "abc1234") Hlog).
  - exact (Hfirst (py "binderhub") [py "other"] (py "abc1234") Hlog).
  - apply (Hall [py "binderhub"; py "other"] (py "abc1234") Hlog).
    intros image [<- | [<- | []]]; split; intros; vm_compute; reflexivity.
  - exact (Hmain (py "abc1234") Hlog).
Defined.

(** C4.  Let [v] be the identifier [last_git_modified(IMAGE_FILES)]
    returns.  Unless the image is skipped, [build_images] runs
    [docker build -t prefix+image+":"+v --build-arg BINDERHUB_VERSION=v]
    on the directory of the image, right after asking for [v]: in the
    iteration of an image, for the first image of its list whatever the
    commands answer afterwards, for every image in turn when the [docker]
    commands succeed, and so does [main] for the image [binderhub].
    [build_values] leaves a values document whose [image.name] is
    [prefix + "binderhub"] and whose [image.tag] is [v], and so does
    [main] once [build_images] has returned. *)
Theorem image_and_values_carry_identifier (B : str) (w : world)
    (prefix v : str) :
  log_answers w (IMAGE_FILES B) v ->
  (forall (range : option str) (push : bool) (image : str)
          (fs : gmap str file),
      not_skipped B w range ->
      exists rest,
        trace (build_image B w prefix range push image fs)
        = consulted B range
          ++ [Run (cmd (git_log_argv (IMAGE_FILES B)));
              Run (cmd [py "docker"; py "build"; py "-t";
                        prefix ++ image ++ py ":" ++ v;
                        py "--build-arg"; py "BINDERHUB_VERSION=" ++ v;
                        join B [py "images"; image]])]
          ++ rest)
  /\ (forall (range : option str) (push : bool) (image : str)
             (images : list str) (fs : gmap str file),
         not_skipped B w range ->
         exists rest,
           trace (build_images B w prefix (image :: images) range push fs)
           = consulted B range
             ++ [Run (cmd (git_log_argv (IMAGE_FILES B)));
                 Run (cmd [py "docker"; py "build"; py "-t";
                           prefix ++ image ++ py ":" ++ v;
                           py "--build-arg"; py "BINDERHUB_VERSION=" ++ v;
                           join B [py "images"; image]])]
             ++ rest)
  /\ (forall (range : option str) (push : bool) (images : list str)
             (fs : gmap str file),
         not_skipped B w range ->
         (forall image, In image images ->
            returncode (w (build_command B prefix v image)) = 0%Z
            /\ (push = true ->
                returncode (w (push_command prefix v image)) = 0%Z)) ->
         build_images B w prefix images range push fs
         = Outcome (inr tt) fs
             (flat_map
                (fun image =>
                   consulted B range
                   ++ [Run (cmd (git_log_argv (IMAGE_FILES B)));
                       Run (cmd [py "docker"; py "build"; py "-t";
                                 prefix ++ image ++ py ":" ++ v;
                                 py "--build-arg";
                                 py "BINDERHUB_VERSION=" ++ v;
                                 join B [py "images"; image]])]
                   ++ (if push
                       then [Run (cmd [py "docker"; py "push";
                                       prefix ++ image ++ py ":" ++ v])]
                       else []))
                images))
  /\ (forall (range : option str) (push : bool) (fs : gmap str file),
         not_skipped B w range ->
         exists rest,
           trace (main B w (Args prefix (Some (py "build")) range push) fs)
           = consulted B range
             ++ [Run (cmd (git_log_argv (IMAGE_FILES B)));
                 Run (cmd [py "docker"; py "build"; py "-t";
                           prefix ++ py "binderhub" ++ py ":" ++ v;
                           py "--build-arg"; py "BINDERHUB_VERSION=" ++ v;
                           join B [py "images"; py "binderhub"]])]
             ++ rest)
  /\ (forall (fs : gmap str file) (values image : list (str * yaml)),
         reads w fs (values_yaml B) (YMap values) ->
         assoc_get (py "image") values = Some (YMap image) ->
         exists values' image',
           files (build_values B w prefix fs) !! values_yaml B
           = Some (Dumped (YMap values'))
           /\ assoc_get (py "image") values' = Some (YMap image')
           /\ assoc_get (py "name") image'
              = Some (YStr (prefix ++ py "binderhub"))
           /\ assoc_get (py "tag") image' = Some (YStr v))
  /\ (forall (range : option str) (pushing : bool) (fs : gmap str file)
             (values image chart : list (str * yaml)) (old v' : str),
         result (build_images B w prefix [py "binderhub"] range pushing fs)
         = inr tt ->
         log_answers w ([B] ++ IMAGE_FILES B) v' ->
         reads w fs (values_yaml B) (YMap values) ->
         assoc_get (py "image") values = Some (YMap image) ->
         reads w fs (chart_yaml B) (YMap chart) ->
         assoc_get (py "version") chart = Some (YStr old) ->
         exists values' image',
           files (main B w (Args prefix (Some (py "build")) range pushing) fs)
             !! values_yaml B
           = Some (Dumped (YMap values'))
           /\ assoc_get (py "image") values' = Some (YMap image')
           /\ assoc_get (py "name") image'
              = Some (YStr (prefix ++ py "binderhub"))
           /\ assoc_get (py "tag") image' = Some (YStr v)).
Proof.
  intros Hlog.
  assert (Hstamped : forall image : list (str * yaml),
            assoc_get (py "name")
              (assoc_set (py "tag") (YStr v)
                 (assoc_set (py "name") (YStr (prefix ++ NAME)) image))
            = Some (YStr (prefix ++ py "binderhub"))
            /\ assoc_get (py "tag")
                 (assoc_set (py "tag") (YStr v)
                    (assoc_set (py "name") (YStr (prefix ++ NAME)) image))
               = Some (YStr v)).
  { intros image. split; [| apply assoc_get_set_eq].
    rewrite assoc_get_set_ne by (vm_compute; discriminate).
    apply assoc_get_set_eq. }
  split; [| split; [| split; [| split; [| split]]]].
  - intros range push image fs Hgo.
    exact (build_image_builds B w prefix v range push image fs Hlog Hgo).
  - intros range push image images fs Hgo.
    exact (build_images_first B w prefix v range push image images fs
             Hlog Hgo).
  - intros range push images fs Hgo.
    induction images as [|image images IH]; intros Hok.
    + reflexivity.
    + cbn [build_images flat_map].
      destruct (Hok image (or_introl eq_refl)) as [Hbuild Hpush].
      rewrite (bind_run _ _ _ _ _ _
                 (build_image_ok B w prefix v range push image fs
                    Hgo Hlog Hbuild Hpush)).
      rewrite IH by (intros i Hi; apply Hok; right; exact Hi).
      reflexivity.
  - intros range push fs Hgo.
    destruct (main_first B w prefix range push fs) as [rest1 ->].
    destruct (build_images_first B w prefix v range push (py "binderhub") []
                fs Hlog Hgo) as [rest2 ->].
    exists (rest2 ++ rest1). rewrite <- !app_assoc. reflexivity.
  - intros fs values image Hfile Himage.
    rewrite (build_values_run B w prefix fs values image v Hlog Hfile Himage).
    cbn [files]. do 2 eexists.
    split; [apply lookup_insert_eq |].
    split; [apply assoc_get_set_eq |].
    apply Hstamped.
  - intros range pushing fs values image chart old v' Himages Hv Hvalues
           Himage Hchart Hver.
    rewrite (main_after_images B w prefix range pushing fs values image chart
               old v v' Himages Hlog Hv Hvalues Himage Hchart Hver).
    cbv zeta. cbn [files].
    assert (Hfiles : forall fs' : gmap str file,
              files ((if pushing then publish_pages B w else ret tt) fs')
              = fs').
    { intros fs'. destruct pushing;
        [apply publish_pages_files | reflexivity]. }
    rewrite Hfiles. do 2 eexists.
    split.
    { rewrite lookup_insert_ne
        by (intros E; exact (values_yaml_not_chart_yaml B (eq_sym E))).
      apply lookup_insert_eq. }
    split; [apply assoc_get_set_eq |].
    apply Hstamped.
Qed.

Lemma image_and_values_carry_identifier_witness :
  (exists rest,
      trace (build_image B0 w0 (py "acme/k8s-") None true (py "binderhub")
               fs0)
      = [Run (cmd (git_log_argv (IMAGE_FILES B0)));
         Run (cmd [py "docker"; py "build"; py "-t";
                   py "acme/k8s-binderhub:abc1234";
                   py "--build-arg"; py "BINDERHUB_VERSION=abc1234";
                   py "/repo/helm-chart/images/binderhub"])]
        ++ rest)
  /\ (exists rest,
        trace (build_images B0 w0 (py "acme/k8s-")
                 [py "binderhub"; py "other"] None true fs0)
        = [Run (cmd (git_log_argv (IMAGE_FILES B0)));
           Run (cmd [py "docker"; py "build"; py "-t";
                     py "acme/k8s-binderhub:abc1234";
                     py "--build-arg"; py "BINDERHUB_VERSION=abc1234";
                     py "/repo/helm-chart/images/binderhub"])]
          ++ rest)
  /\ build_images B0 w0 (py "acme/k8s-") [py "binderhub"] None true fs0
  = Outcome (inr tt) fs0
      [Run (cmd (git_log_argv (IMAGE_FILES B0)));
       Run (cmd [py "docker"; py "build"; py "-t";
                 py "acme/k8s-binderhub:abc1234";
                 py "--build-arg"; py "BINDERHUB_VERSION=abc1234";
                 py "/repo/helm-chart/images/binderhub"]);
       Run (cmd [py "docker"; py "push"; py "acme/k8s-binderhub:abc1234"])]
  /\ (exists rest,
        trace (main B0 w0
                 (Args (py "acme/k8s-") (Some (py "build")) None false) fs0)
        = [Run (cmd (git_log_argv (IMAGE_FILES B0)));
           Run (cmd [py "docker"; py "build"; py "-t";
                     py "acme/k8s-binderhub:abc1234";
                     py "--build-arg"; py "BINDERHUB_VERSION=abc1234";
                     py "/repo/helm-chart/images/binderhub"])]
          ++ rest)
  /\ (exists values' image',
        files (build_values B0 w0 (py "acme/k8s-") fs0) !! values_yaml B0
        = Some (Dumped (YMap values'))
        /\ assoc_get (py "image") values' = Some (YMap image')
        /\ assoc_get (py "name") image'
           = Some (YStr (py "acme/k8s-binderhub"))
        /\ assoc_get (py "tag") image' = Some (YStr (py "abc1234")))
  /\ (exists values' image',
        files (main B0 w0
                 (Args (py "acme/k8s-") (Some (py "build")) None false) fs0)
          !! values_yaml B0
        = Some (Dumped (YMap values'))
        /\ assoc_get (py "image") values' = Some (YMap image')
        /\ assoc_get (py "name") image'
           = Some (YStr (py "acme/k8s-binderhub"))
        /\ assoc_get (py "tag") image' = Some (YStr (py "abc1234"))).
Proof.
  assert (Hlog : log_answers w0 (IMAGE_FILES B0) (py "abc1234"))
    by (split; vm_compute; reflexivity).
  assert (Hvalues : reads w0 fs0 (values_yaml B0) (YMap values0)).
  { exists (Parsed (YMap values0)).
    split; [vm_compute; reflexivity | reflexivity]. }
  assert (Hchart : reads w0 fs0 (chart_yaml B0) (YMap chart0)).
  { exists (Parsed (YMap chart0)).
    split; [vm_compute; reflexivity | reflexivity]. }
  destruct (image_and_values_carry_identifier B0 w0 (py "acme/k8s-")
              (py "abc1234") Hlog)
    as (Hbody & Hfirst & Hall & Hmain & Hvals & Hmainvals).
  split; [| split; [| split; [| split; [| split]]]].
  - exact (Hbody None true (py "binderhub") fs0 I).
  - exact (Hfirst None true (py "binderhub") [py "other"] fs0 I).
  - apply (Hall None true [py "binderhub"] fs0); [exact I |].
    intros image [<- | []]; split; intros; vm_compute; reflexivity.
  - exact (Hmain None false fs0 I).
  - exact (Hvals fs0 values0 image0 Hvalues eq_refl).
  - apply (Hmainvals None false fs0 values0 image0 chart0
             (py "1.2.3-abc123") (py "def456")).
    + vm_compute. reflexivity.
    + split; vm_compute; reflexivity.
    + exact Hvalues.
    + reflexivity.
    + exact Hchart.
    + reflexivity.
Defined.

(** C5, as the specification states it, fails: [git log] on a path no
    commit touched exits with 0 and prints nothing, and
    [last_git_modified] returns the empty string. *)
Lemma last_git_modified_returns_empty :
  stdout (w0 (cmd (git_log_argv [untouched]))) = []
  /\ last_git_modified w0 (Paths [untouched]) fs0
     = Outcome (inr []) fs0 [Run (cmd (git_log_argv [untouched]))]
  /\ ~ (exists e, result (last_git_modified w0 (Paths [untouched]) fs0)
                  = inl e).
Proof.
  assert (H : last_git_modified w0 (Paths [untouched]) fs0
              = Outcome (inr []) fs0 [Run (cmd (git_log_argv [untouched]))]).
  { apply last_git_modified_ok. split; vm_compute; reflexivity. }
  split; [vm_compute; reflexivity |].
  split; [exact H |].
  rewrite H. intros [e He]. discriminate He.
Qed.

(** C5, amended.  [last_git_modified] fails, with the [CalledProcessError]
    of [subprocess.check_output], when [git log] exits with another status
    than 0; when [git log] exits with 0 and prints nothing it returns the
    empty string. *)
Theorem last_git_modified_failure (w : world) (paths : paths_arg)
    (fs : gmap str file) :
  let c := cmd (git_log_argv (as_list paths)) in
  (returncode (w c) <> 0%Z ->
   last_git_modified w paths fs
   = Outcome (inl (CalledProcessError c (returncode (w c)))) fs [Run c])
  /\ (returncode (w c) = 0%Z ->
      stdout (w c) = [] ->
      last_git_modified w paths fs = Outcome (inr []) fs [Run c]).
Proof.
  intros c. split.
  - intros Hrc. unfold last_git_modified.
    apply bind_raise. apply check_output_fail. exact Hrc.
  - intros Hrc Hout. apply last_git_modified_ok.
    split; [exact Hrc |]. fold c. rewrite Hout. reflexivity.
Qed.

Lemma last_git_modified_failure_witness :
  last_git_modified w_no_commit (Paths [untouched]) fs0
  = Outcome
      (inl (CalledProcessError (cmd (git_log_argv [untouched])) 128))
      fs0 [Run (cmd (git_log_argv [untouched]))]
  /\ last_git_modified w0 (Paths [untouched]) fs0
     = Outcome (inr []) fs0 [Run (cmd (git_log_argv [untouched]))].
Proof.
  split.
  - apply (last_git_modified_failure w_no_commit (Paths [untouched]) fs0).
    vm_compute. discriminate.
  - apply (last_git_modified_failure w0 (Paths [untouched]) fs0).
    + vm_compute. reflexivity.
    + vm_compute. reflexivity.
Defined.
(** C9.  [path_changed] does not answer "the output of [git diff] is not
    empty": when the file named " " at the top of the repository changed,
    [git diff --name-only] prints its name and a newline, the output is
    not empty, and [path_changed] returns false, because it strips the
    output before it compares it with the empty string. *)
Theorem path_changed_blank_output :
  let c := cmd (git_diff_argv [py " "] (py "HEAD~1..HEAD")) in
  let o := path_changed w_blank (OnePath (py " ")) (py "HEAD~1..HEAD") fs0 in
  o = Outcome (inr false) fs0 [Run c]
  /\ stdout (w_blank c) <> []
  /\ ~ (result o = inr true <-> stdout (w_blank c) <> []).
Proof.
  intros c o.
  assert (Ho : o = Outcome (inr false) fs0 [Run c]).
  { subst o c.
    rewrite (path_changed_ok w_blank (OnePath (py " ")) (py "HEAD~1..HEAD")
               [32; 10] fs0) by (split; reflexivity).
    reflexivity. }
  split; [exact Ho |]. split; [discriminate |].
  rewrite Ho. intros [_ H]. cbn [result] in H.
  assert (Hout : stdout (w_blank c) <> []) by discriminate.
  specialize (H Hout). discriminate H.
Qed.

(** C6.  In a checkout whose last commit on [CHART_FILES] is [aaa1111] and
    where a later commit, [bbb2222], changed [helm-chart/build.py] only,
    [build_chart] asks [git log] about the directory of the script and the
    image files, not about [CHART_FILES], and stamps [bbb2222]. *)
Theorem build_chart_stamps_other_paths :
  log_answers w_drift (CHART_FILES B0) (py "aaa1111")
  /\ CHART_FILES B0
     = [py "/repo/setup.py"; py "/repo/binderhub";
        py "/repo/helm-chart/images/binderhub";
        py "/repo/helm-chart/binderhub"]
  /\ build_chart B0 w_drift fs0
     = Outcome (inr (YStr (py "1.2.3-abc123")))
         (<[chart_yaml B0 :=
              Dumped (YMap [ (py "name", YStr (py "binderhub"));
                             (py "version", YStr (py "1.2.3-bbb2222")) ])]>
            fs0)
         [Run (cmd [py "git"; py "log"; py "-n"; py "1";
                    py "--pretty=format:%h"; py "--";
                    py "/repo/helm-chart"; py "/repo/setup.py";
                    py "/repo/binderhub";
                    py "/repo/helm-chart/images/binderhub"])].
Proof.
  split; [split; vm_compute; reflexivity |].
  split; [vm_compute; reflexivity |].
  rewrite (build_chart_run B0 w_drift fs0 chart0 (py "1.2.3-abc123")
             (py "bbb2222")).
  - reflexivity.
  - split; vm_compute; reflexivity.
  - exists (Parsed (YMap chart0)).
    split; [vm_compute; reflexivity | reflexivity].
  - reflexivity.
Qed.

(** When [yaml.load] reads back the documents of the first run as they were
    written, running [build_values] and [build_chart] again, with the same
    prefix and the same answers of [git log], leaves every file as the
    first run left it. *)
Lemma stamping_idempotent_if_read_back (B : str) (w : world) (prefix : str)
    (fs : gmap str file) (r : yaml) :
  result (stamp B w prefix fs) = inr r ->
  (forall p doc, files (stamp B w prefix fs) !! p = Some (Dumped doc) ->
                 reread w doc = inr doc) ->
  files (stamp B w prefix (files (stamp B w prefix fs)))
  = files (stamp B w prefix fs)
  /\ exists r', result (stamp B w prefix (files (stamp B w prefix fs)))
                = inr r'.
Proof.
  unfold stamp. intros H.
  apply bind_inr in H as (u & Hvalues & Hchart).
  pose proof (values_yaml_not_chart_yaml B) as Hne.
  apply build_values_inr in Hvalues as (values & image & t & Ht & Hv & Hi).
  rewrite (build_values_run B w prefix fs values image t Ht Hv Hi) in Hchart.
  cbn [files] in Hchart.
  apply build_chart_inr in Hchart as (chart & old & v & Hlog & Hc & Hver).
  set (image1 := assoc_set (py "tag") (YStr t)
                   (assoc_set (py "name") (YStr (prefix ++ NAME)) image))
    in *.
  set (values1 := assoc_set (py "image") (YMap image1) values) in *.
  set (fs1 := <[values_yaml B := Dumped (YMap values1)]> fs) in *.
  set (new := before_first 45 old ++ py "-" ++ v).
  set (chart1 := assoc_set (py "version") (YStr new) chart).
  set (fs2 := <[chart_yaml B := Dumped (YMap chart1)]> fs1).
  assert (Hfirst : (build_values B w prefix ;;; build_chart B w) fs
                   = Outcome (inr (YStr old)) fs2
                       ([Run (cmd (git_log_argv (IMAGE_FILES B)))]
                        ++ [Run (cmd (git_log_argv ([B] ++ IMAGE_FILES B)))])).
  { rewrite (bind_run _ _ _ _ _ _
               (build_values_run B w prefix fs values image t Ht Hv Hi)).
    fold image1 values1 fs1.
    rewrite (build_chart_run B w fs1 chart old v Hlog Hc Hver).
    reflexivity. }
  rewrite Hfirst. cbn [files]. intros Hback.
  assert (Hv2 : fs2 !! values_yaml B = Some (Dumped (YMap values1))).
  { unfold fs2, fs1. rewrite lookup_insert_ne by congruence.
    apply lookup_insert_eq. }
  assert (Hc2 : fs2 !! chart_yaml B = Some (Dumped (YMap chart1)))
    by apply lookup_insert_eq.
  assert (Hrv : reads w fs2 (values_yaml B) (YMap values1)).
  { exists (Dumped (YMap values1)). split; [exact Hv2 |].
    exact (Hback _ _ Hv2). }
  assert (Hrc : reads w fs2 (chart_yaml B) (YMap chart1)).
  { exists (Dumped (YMap chart1)). split; [exact Hc2 |].
    exact (Hback _ _ Hc2). }
  assert (Hi2 : assoc_get (py "image") values1 = Some (YMap image1))
    by apply assoc_get_set_eq.
  assert (Himage1 :
            assoc_set (py "tag") (YStr t)
              (assoc_set (py "name") (YStr (prefix ++ NAME)) image1)
            = image1).
  { rewrite (assoc_set_same (py "name") _ image1).
    - apply assoc_set_same. apply assoc_get_set_eq.
    - unfold image1. rewrite assoc_get_set_ne by (vm_compute; discriminate).
      apply assoc_get_set_eq. }
  assert (Hsecond : build_values B w prefix fs2
                    = Outcome (inr tt) fs2
                        [Run (cmd (git_log_argv (IMAGE_FILES B)))]).
  { rewrite (build_values_run B w prefix fs2 values1 image1 t Ht Hrv Hi2).
    rewrite Himage1.
    rewrite (assoc_set_same (py "image") _ values1 Hi2).
    rewrite (insert_id fs2 _ _ Hv2). reflexivity. }
  rewrite (bind_run _ _ _ _ _ _ Hsecond).
  assert (Hver2 : assoc_get (py "version") chart1 = Some (YStr new))
    by apply assoc_get_set_eq.
  rewrite (build_chart_run B w fs2 chart1 new v Hlog Hrc Hver2).
  cbn [files result].
  assert (Hnew : before_first 45 new ++ py "-" ++ v = new).
  { exact (f_equal (fun p => p ++ py "-" ++ v) (before_first_app 45 old v)). }
  rewrite Hnew, (assoc_set_same (py "version") _ chart1 Hver2).
  rewrite (insert_id fs2 _ _ Hc2).
  split; [reflexivity | eauto].
Qed.


(** C8.  A run of [build] without [--push] runs commands of the build
    stage only (the change check, the questions to [git log], and
    [docker build]): none is a [docker push], none is a command of
    [publish_pages]; and no file but [values.yaml] and [Chart.yaml] of the
    chart is written. *)
Theorem no_push_no_publish (B : str) (w : world) (prefix : str)
    (range : option str) (fs : gmap str file) :
  let o := main B w (Args prefix (Some (py "build")) range false) fs in
  (forall c, In (Run c) (trace o) ->
             build_stage_command B c
             /\ ~ docker_push_command c
             /\ ~ publish_stage_command B c)
  /\ (forall p : str,
         p <> values_yaml B -> p <> chart_yaml B -> files o !! p = fs !! p).
Proof.
  intros o. split.
  - intros c Hin.
    pose proof (main_no_push_trace B w prefix range fs) as Hall.
    rewrite List.Forall_forall in Hall. specialize (Hall (Run c) Hin).
    simpl in Hall. split; [exact Hall |].
    split; [apply (build_stage_not_push B) | apply build_stage_not_publish];
      exact Hall.
  - intros p Hv Hc. apply (main_no_push_frame B w prefix range fs).
    simpl. intros [H | [H | []]]; congruence.
Qed.

Lemma no_push_no_publish_witness :
  (build_stage_command B0 (cmd (git_log_argv (IMAGE_FILES B0)))
   /\ ~ docker_push_command (cmd (git_log_argv (IMAGE_FILES B0)))
   /\ ~ publish_stage_command B0 (cmd (git_log_argv (IMAGE_FILES B0))))
  /\ files (main B0 w0 (Args (py "acme/k8s-") (Some (py "build")) None false)
              fs0) !! untouched
     = fs0 !! untouched.
Proof.
  destruct (no_push_no_publish B0 w0 (py "acme/k8s-") None fs0)
    as [Hrun Hfiles].
  split.
  - apply Hrun. vm_compute. left. reflexivity.
  - apply Hfiles; vm_compute; discriminate.
Defined.
(** C10.  [main] runs [build_values] and [build_chart] after
    [build_images] without any test: whatever the commit range, given or
    not, and whether the image was built or skipped, once [build_images]
    has returned the two questions to [git log] follow and [image.name],
    [image.tag] and the chart version are rewritten.  In particular, with
    a commit range over which the image files did not change, the run is
    the change check, the message, the two questions, and both manifests
    are rewritten. *)
Theorem stamping_is_unconditional (B : str) (w : world) (prefix : str)
    (pushing : bool) (fs : gmap str file)
    (values image chart : list (str * yaml)) (old t v : str) :
  log_answers w (IMAGE_FILES B) t ->
  log_answers w ([B] ++ IMAGE_FILES B) v ->
  reads w fs (values_yaml B) (YMap values) ->
  assoc_get (py "image") values = Some (YMap image) ->
  reads w fs (chart_yaml B) (YMap chart) ->
  assoc_get (py "version") chart = Some (YStr old) ->
  (forall range : option str,
      result (build_images B w prefix [py "binderhub"] range pushing fs)
      = inr tt ->
      let o := main B w (Args prefix (Some (py "build")) range pushing) fs in
      trace o
      = trace (build_images B w prefix [py "binderhub"] range pushing fs)
        ++ [Run (cmd (git_log_argv (IMAGE_FILES B)));
            Run (cmd (git_log_argv ([B] ++ IMAGE_FILES B)))]
        ++ (if pushing then trace (publish_pages B w (files o)) else [])
      /\ files o !! values_yaml B
         = Some (Dumped
                   (YMap (assoc_set (py "image")
                            (YMap (assoc_set (py "tag") (YStr t)
                                     (assoc_set (py "name")
                                        (YStr (prefix ++ py "binderhub"))
                                        image)))
                            values)))
      /\ files o !! chart_yaml B
         = Some (Dumped
                   (YMap (assoc_set (py "version")
                            (YStr (before_first 45 old ++ py "-" ++ v))
                            chart))))
  /\ (forall r s : str,
         r <> [] ->
         diff_answers w (IMAGE_FILES B) r s ->
         strip s = [] ->
         let o := main B w (Args prefix (Some (py "build")) (Some r) pushing)
                    fs in
         trace o
         = [Run (cmd (git_diff_argv (IMAGE_FILES B) r));
            Print (skip_message (py "binderhub") r);
            Run (cmd (git_log_argv (IMAGE_FILES B)));
            Run (cmd (git_log_argv ([B] ++ IMAGE_FILES B)))]
           ++ (if pushing then trace (publish_pages B w (files o)) else [])
         /\ files o !! values_yaml B
            = Some (Dumped
                      (YMap (assoc_set (py "image")
                               (YMap (assoc_set (py "tag") (YStr t)
                                        (assoc_set (py "name")
                                           (YStr (prefix ++ py "binderhub"))
                                           image)))
                               values)))
         /\ files o !! chart_yaml B
            = Some (Dumped
                      (YMap (assoc_set (py "version")
                               (YStr (before_first 45 old ++ py "-" ++ v))
                               chart)))).
Proof.
  intros Ht Hv Hvalues Himage Hchart Hver.
  pose proof (values_yaml_not_chart_yaml B) as Hne.
  assert (Hgen : forall range : option str,
      result (build_images B w prefix [py "binderhub"] range pushing fs)
      = inr tt ->
      let o := main B w (Args prefix (Some (py "build")) range pushing) fs in
      trace o
      = trace (build_images B w prefix [py "binderhub"] range pushing fs)
        ++ [Run (cmd (git_log_argv (IMAGE_FILES B)));
            Run (cmd (git_log_argv ([B] ++ IMAGE_FILES B)))]
        ++ (if pushing then trace (publish_pages B w (files o)) else [])
      /\ files o !! values_yaml B
         = Some (Dumped
                   (YMap (assoc_set (py "image")
                            (YMap (assoc_set (py "tag") (YStr t)
                                     (assoc_set (py "name")
                                        (YStr (prefix ++ py "binderhub"))
                                        image)))
                            values)))
      /\ files o !! chart_yaml B
         = Some (Dumped
                   (YMap (assoc_set (py "version")
                            (YStr (before_first 45 old ++ py "-" ++ v))
                            chart)))).
  { intros range Himages o. subst o.
    rewrite (main_after_images B w prefix range pushing fs values image chart
               old t v Himages Ht Hv Hvalues Himage Hchart Hver).
    cbv zeta. cbn [files trace].
    assert (Hfiles : forall fs' : gmap str file,
              files ((if pushing then publish_pages B w else ret tt) fs')
              = fs').
    { intros fs'. destruct pushing;
        [apply publish_pages_files | reflexivity]. }
    rewrite !Hfiles. split; [| split].
    - destruct pushing; reflexivity.
    - rewrite lookup_insert_ne by congruence. apply lookup_insert_eq.
    - apply lookup_insert_eq. }
  split; [exact Hgen |].
  intros r s Hr Hdiff Hs.
  pose proof (build_images_skip B w prefix r s pushing [py "binderhub"] fs
                Hr Hdiff Hs) as Hskip.
  specialize (Hgen (Some r)). rewrite Hskip in Hgen.
  exact (Hgen eq_refl).
Qed.

Lemma stamping_is_unconditional_witness :
  (let o := main B0 w0 (Args (py "acme/k8s-") (Some (py "build")) None false)
              fs0 in
   trace o
   = trace (build_images B0 w0 (py "acme/k8s-") [py "binderhub"] None false
              fs0)
     ++ [Run (cmd (git_log_argv (IMAGE_FILES B0)));
         Run (cmd (git_log_argv ([B0] ++ IMAGE_FILES B0)))]
     ++ []
   /\ files o !! values_yaml B0
      = Some (Dumped
                (YMap [ (py "replicas", YInt 2);
                        (py "image",
                         YMap [ (py "name", YStr (py "acme/k8s-binderhub"));
                                (py "tag", YStr (py "abc1234")) ]) ]))
   /\ files o !! chart_yaml B0
      = Some (Dumped
                (YMap [ (py "name", YStr (py "binderhub"));
                        (py "version", YStr (py "1.2.3-def456")) ])))
  /\ (let o := main B0 w0
                 (Args (py "acme/k8s-") (Some (py "build"))
                    (Some (py "HEAD~1..HEAD")) false) fs0 in
      trace o
      = [Run (cmd (git_diff_argv (IMAGE_FILES B0) (py "HEAD~1..HEAD")));
         Print (py "Skipping binderhub, not touched in HEAD~1..HEAD");
         Run (cmd (git_log_argv (IMAGE_FILES B0)));
         Run (cmd (git_log_argv ([B0] ++ IMAGE_FILES B0)))]
        ++ []
      /\ files o !! values_yaml B0
         = Some (Dumped
                   (YMap [ (py "replicas", YInt 2);
                           (py "image",
                            YMap [ (py "name",
                                    YStr (py "acme/k8s-binderhub"));
                                   (py "tag", YStr (py "abc1234")) ]) ]))
      /\ files o !! chart_yaml B0
         = Some (Dumped
                   (YMap [ (py "name", YStr (py "binderhub"));
                           (py "version", YStr (py "1.2.3-def456")) ]))).
Proof.
  assert (Hvalues : reads w0 fs0 (values_yaml B0) (YMap values0)).
  { exists (Parsed (YMap values0)).
    split; [vm_compute; reflexivity | reflexivity]. }
  assert (Hchart : reads w0 fs0 (chart_yaml B0) (YMap chart0)).
  { exists (Parsed (YMap chart0)).
    split; [vm_compute; reflexivity | reflexivity]. }
  destruct (stamping_is_unconditional B0 w0 (py "acme/k8s-") false fs0
              values0 image0 chart0 (py "1.2.3-abc123") (py "abc1234")
              (py "def456")) as [Hany Hskip].
  - split; vm_compute; reflexivity.
  - split; vm_compute; reflexivity.
  - exact Hvalues.
  - reflexivity.
  - exact Hchart.
  - reflexivity.
  - split.
    + apply (Hany None). vm_compute. reflexivity.
    + apply (Hskip (py "HEAD~1..HEAD") []).
      * discriminate.
      * split; vm_compute; reflexivity.
      * reflexivity.
Defined.

(** * More properties of the script *)

(** X1.  The layout of the paths the script computes: [values.yaml] and
    [Chart.yaml] lie in the chart directory and [setup.py] and the package
    in [ROOTPATH], wherever the script lies; and when [BASEPATH] is a path
    as [os.path.abspath] returns it (no slash at the end unless it is the
    root), the chart directory and the [images] directory lie in
    [BASEPATH]. *)
Theorem paths_layout (B : str) :
  dirname (values_yaml B) = CHARTPATH B
  /\ dirname (chart_yaml B) = CHARTPATH B
  /\ dirname (SETUP_PY B) = ROOTPATH B
  /\ dirname (PYPKGPATH B) = ROOTPATH B
  /\ (normal B ->
      dirname (CHARTPATH B) = B /\ dirname (dirname (IMAGE_PATH B)) = B).
Proof.
  assert (Hchart : normal (CHARTPATH B)).
  { left. unfold CHARTPATH, join. simpl fold_left.
    eapply join2_not_endswith_sep; [| vm_compute; reflexivity].
    vm_compute. intuition discriminate. }
  assert (Himages : normal (join2 B (py "images"))).
  { left. eapply join2_not_endswith_sep; [| vm_compute; reflexivity].
    vm_compute. intuition discriminate. }
  repeat split.
  - apply dirname_join2; [vm_compute; intuition discriminate | exact Hchart].
  - apply dirname_join2; [vm_compute; intuition discriminate | exact Hchart].
  - apply dirname_join2;
      [vm_compute; intuition discriminate | apply dirname_normal].
  - apply dirname_join2;
      [vm_compute; intuition discriminate | apply dirname_normal].
  - apply dirname_join2; [vm_compute; intuition discriminate | exact H].
  - unfold IMAGE_PATH, join. simpl fold_left.
    rewrite dirname_join2;
      [| vm_compute; intuition discriminate | exact Himages].
    apply dirname_join2; [vm_compute; intuition discriminate | exact H].
Qed.

Lemma paths_layout_witness :
  dirname (CHARTPATH B0) = B0 /\ dirname (dirname (IMAGE_PATH B0)) = B0.
Proof.
  apply (paths_layout B0). left. vm_compute. reflexivity.
Defined.

(** X2.  [last_git_modified] returns an answer of [git log] made of ASCII
    characters as it is; it raises [UnicodeDecodeError] on an answer that
    is not UTF-8; and whatever it returns is made of Unicode scalar
    values. *)
Theorem last_git_modified_decodes (w : world) (paths : paths_arg)
    (fs : gmap str file) :
  let c := cmd (git_log_argv (as_list paths)) in
  (returncode (w c) = 0%Z ->
   (forall x, In x (stdout (w c)) -> Byte.to_N x < 128) ->
   last_git_modified w paths fs
   = Outcome (inr (List.map Byte.to_N (stdout (w c)))) fs [Run c])
  /\ (returncode (w c) = 0%Z ->
      decode (stdout (w c)) = None ->
      last_git_modified w paths fs
      = Outcome (inl UnicodeDecodeError) fs [Run c])
  /\ (forall v, result (last_git_modified w paths fs) = inr v ->
                forall x, In x v -> scalar_value x).
Proof.
  intros c. split; [| split].
  - intros Hrc Hascii. apply last_git_modified_ok.
    split; [exact Hrc | apply decode_ascii; exact Hascii].
  - intros Hrc Hdec. unfold last_git_modified.
    rewrite (bind_run _ _ _ _ _ _ (check_output_ok w c fs Hrc)).
    unfold decode_utf8. rewrite Hdec. reflexivity.
  - intros v Hv. apply last_git_modified_inr in Hv as [_ Hdec].
    exact (decode_scalar _ _ Hdec).
Qed.

Lemma last_git_modified_decodes_witness :
  last_git_modified w0 (Paths (IMAGE_FILES B0)) fs0
  = Outcome (inr (py "abc1234")) fs0
      [Run (cmd (git_log_argv (IMAGE_FILES B0)))]
  /\ last_git_modified w_latin1 (Paths (IMAGE_FILES B0)) fs0
     = Outcome (inl UnicodeDecodeError) fs0
         [Run (cmd (git_log_argv (IMAGE_FILES B0)))]
  /\ (forall x, In x (py "abc1234") -> scalar_value x).
Proof.
  split; [| split].
  - apply (last_git_modified_decodes w0 (Paths (IMAGE_FILES B0)) fs0).
    + vm_compute. reflexivity.
    + vm_compute. intros x H.
      repeat (destruct H as [<- | H]; [reflexivity |]). destruct H.
  - apply (last_git_modified_decodes w_latin1 (Paths (IMAGE_FILES B0)) fs0).
    + reflexivity.
    + reflexivity.
  - apply (last_git_modified_decodes w0 (Paths (IMAGE_FILES B0)) fs0).
    vm_compute. reflexivity.
Defined.

(** X3.  [str.strip], as [path_changed] uses it: it removes white space at
    both ends and nothing else, what is left neither starts nor ends with
    white space, and stripping again changes nothing. *)
Theorem strip_contract (s : str) :
  (exists l r, s = l ++ strip s ++ r /\ blank l /\ blank r)
  /\ (forall c t, strip s = c :: t -> isspace c = false)
  /\ (forall c t, rev (strip s) = c :: t -> isspace c = false)
  /\ strip (strip s) = strip s.
Proof.
  assert (Hfirst : forall c t, strip s = c :: t -> isspace c = false).
  { intros c t H. unfold strip in H.
    destruct (rstrip_head _ _ _ H) as [t' Ht'].
    exact (lstrip_head _ _ _ Ht'). }
  assert (Hlast : forall c t, rev (strip s) = c :: t -> isspace c = false).
  { intros c t H. unfold strip, rstrip in H. rewrite rev_involutive in H.
    exact (lstrip_head _ _ _ H). }
  split; [| split; [exact Hfirst | split; [exact Hlast |]]].
  - destruct (lstrip_suffix s) as (l & Hl & Hbl).
    destruct (rstrip_prefix (lstrip s)) as (r & Hr & Hbr).
    exists l, r. split; [| split; assumption].
    unfold strip. rewrite <- Hr. exact Hl.
  - unfold strip at 1. rewrite (lstrip_id (strip s) Hfirst).
    unfold rstrip. rewrite (lstrip_id (rev (strip s)) Hlast).
    apply rev_involutive.
Qed.

Lemma strip_contract_witness :
  (exists l r, py "  setup.py " = l ++ strip (py "  setup.py ") ++ r
               /\ blank l /\ blank r)
  /\ strip (py "  setup.py ") = py "setup.py".
Proof.
  split.
  - apply (strip_contract (py "  setup.py ")).
  - reflexivity.
Defined.

(** X4.  When [git diff] fails on the commit range, [build_images] stops
    there with the [CalledProcessError] of that command: it asks no
    [git log], runs no [docker] command for this image or the next ones,
    and writes no file. *)
Theorem build_images_check_fails (B : str) (w : world) (prefix r : str)
    (push : bool) (image : str) (rest : list str) (fs : gmap str file) :
  r <> [] ->
  returncode (w (cmd (git_diff_argv (IMAGE_FILES B) r))) <> 0%Z ->
  build_images B w prefix (image :: rest) (Some r) push fs
  = Outcome
      (inl (CalledProcessError (cmd (git_diff_argv (IMAGE_FILES B) r))
              (returncode (w (cmd (git_diff_argv (IMAGE_FILES B) r))))))
      fs [Run (cmd (git_diff_argv (IMAGE_FILES B) r))].
Proof.
  intros Hr Hrc. destruct r as [|c r]; [contradiction |].
  cbn [build_images]. apply bind_raise.
  unfold build_image. apply bind_raise. apply bind_raise.
  exact (path_changed_fail w (Paths (IMAGE_FILES B)) (c :: r) fs Hrc).
Qed.

Lemma build_images_check_fails_witness :
  build_images B0 w_no_commit (py "acme/k8s-")
    [py "binderhub"; py "other"] (Some (py "nonsense")) true fs0
  = Outcome
      (inl (CalledProcessError
              (cmd (git_diff_argv (IMAGE_FILES B0) (py "nonsense"))) 128))
      fs0 [Run (cmd (git_diff_argv (IMAGE_FILES B0) (py "nonsense")))].
Proof.
  apply (build_images_check_fails B0 w_no_commit (py "acme/k8s-")
           (py "nonsense") true (py "binderhub") [py "other"] fs0).
  - discriminate.
  - vm_compute. discriminate.
Defined.

(** X5.  When no image is skipped, [git log] answers [v] and every
    [docker] command succeeds, [build_images] returns normally, writes no
    file, and runs for each image in turn: the change check if there is a
    range, [git log], [docker build] with the tag [prefix+image+":"+v],
    and, with [push], [docker push] of that same tag. *)
Theorem build_images_builds_all (B : str) (w : world) (prefix v : str)
    (range : option str) (push : bool) (images : list str)
    (fs : gmap str file) :
  not_skipped B w range ->
  log_answers w (IMAGE_FILES B) v ->
  (forall image, In image images ->
     returncode (w (build_command B prefix v image)) = 0%Z
     /\ (push = true ->
         returncode (w (push_command prefix v image)) = 0%Z)) ->
  build_images B w prefix images range push fs
  = Outcome (inr tt) fs
      (flat_map (image_events B prefix v range push) images).
Proof.
  intros Hgo Hlog. induction images as [|image images IH]; intros Hok.
  - reflexivity.
  - cbn [build_images flat_map].
    destruct (Hok image (or_introl eq_refl)) as [Hbuild Hpush].
    rewrite (bind_run _ _ _ _ _ _
               (build_image_ok B w prefix v range push image fs
                  Hgo Hlog Hbuild Hpush)).
    rewrite IH by (intros i Hi; apply Hok; right; exact Hi).
    reflexivity.
Qed.

Lemma build_images_builds_all_witness :
  build_images B0 w0 (py "acme/k8s-") [py "binderhub"; py "other"] None true
    fs0
  = Outcome (inr tt) fs0
      [Run (cmd (git_log_argv (IMAGE_FILES B0)));
       Run (cmd [py "docker"; py "build"; py "-t";
                 py "acme/k8s-binderhub:abc1234";
                 py "--build-arg"; py "BINDERHUB_VERSION=abc1234";
                 py "/repo/helm-chart/images/binderhub"]);
       Run (cmd [py "docker"; py "push"; py "acme/k8s-binderhub:abc1234"]);
       Run (cmd (git_log_argv (IMAGE_FILES B0)));
       Run (cmd [py "docker"; py "build"; py "-t";
                 py "acme/k8s-other:abc1234";
                 py "--build-arg"; py "BINDERHUB_VERSION=abc1234";
                 py "/repo/helm-chart/images/other"]);
       Run (cmd [py "docker"; py "push"; py "acme/k8s-other:abc1234"])].
Proof.
  apply (build_images_builds_all B0 w0 (py "acme/k8s-") (py "abc1234") None
           true [py "binderhub"; py "other"] fs0).
  - exact I.
  - split; vm_compute; reflexivity.
  - intros image [<- | [<- | []]]; split; intros; vm_compute; reflexivity.
Defined.

(** X6.  A [docker] command that fails stops [build_images]: after a
    failed [docker build] there is no [docker push], even with [push], and
    after a failed [docker push] as after a failed build the images that
    follow are not built; the exception is the [CalledProcessError] of the
    command that failed. *)
Theorem build_images_docker_fails (B : str) (w : world) (prefix v : str)
    (range : option str) (image : str) (rest : list str)
    (fs : gmap str file) :
  not_skipped B w range ->
  log_answers w (IMAGE_FILES B) v ->
  (forall push : bool,
      returncode (w (build_command B prefix v image)) <> 0%Z ->
      build_images B w prefix (image :: rest) range push fs
      = Outcome
          (inl (CalledProcessError (build_command B prefix v image)
                  (returncode (w (build_command B prefix v image)))))
          fs
          (consulted B range
           ++ [Run (cmd (git_log_argv (IMAGE_FILES B)));
               Run (build_command B prefix v image)]))
  /\ (returncode (w (build_command B prefix v image)) = 0%Z ->
      returncode (w (push_command prefix v image)) <> 0%Z ->
      build_images B w prefix (image :: rest) range true fs
      = Outcome
          (inl (CalledProcessError (push_command prefix v image)
                  (returncode (w (push_command prefix v image)))))
          fs
          (consulted B range
           ++ [Run (cmd (git_log_argv (IMAGE_FILES B)));
               Run (build_command B prefix v image);
               Run (push_command prefix v image)])).
Proof.
  intros Hgo Hlog. split.
  - intros push Hbuild. cbn [build_images]. apply bind_raise.
    rewrite (build_image_not_skipped B w prefix range push image fs Hgo).
    rewrite (build_and_push_build_fails B w prefix v push image fs
               Hlog Hbuild).
    reflexivity.
  - intros Hbuild Hpush. cbn [build_images]. apply bind_raise.
    rewrite (build_image_not_skipped B w prefix range true image fs Hgo).
    rewrite (build_and_push_push_fails B w prefix v image fs
               Hlog Hbuild Hpush).
    reflexivity.
Qed.

Lemma build_images_docker_fails_witness :
  build_images B0 w_build_fails (py "acme/k8s-")
    [py "binderhub"; py "other"] None true fs0
  = Outcome
      (inl (CalledProcessError
              (build_command B0 (py "acme/k8s-") (py "abc1234")
                 (py "binderhub")) 1))
      fs0
      [Run (cmd (git_log_argv (IMAGE_FILES B0)));
       Run (build_command B0 (py "acme/k8s-") (py "abc1234")
              (py "binderhub"))]
  /\ build_images B0 w_push_fails (py "acme/k8s-")
       [py "binderhub"; py "other"] None true fs0
     = Outcome
         (inl (CalledProcessError
                 (push_command (py "acme/k8s-") (py "abc1234")
                    (py "binderhub")) 1))
         fs0
         [Run (cmd (git_log_argv (IMAGE_FILES B0)));
          Run (build_command B0 (py "acme/k8s-") (py "abc1234")
                 (py "binderhub"));
          Run (push_command (py "acme/k8s-") (py "abc1234")
                 (py "binderhub"))].
Proof.
  split.
  - apply (build_images_docker_fails B0 w_build_fails (py "acme/k8s-")
             (py "abc1234") None (py "binderhub") [py "other"] fs0).
    + exact I.
    + split; vm_compute; reflexivity.
    + vm_compute. discriminate.
  - apply (build_images_docker_fails B0 w_push_fails (py "acme/k8s-")
             (py "abc1234") None (py "binderhub") [py "other"] fs0).
    + exact I.
    + split; vm_compute; reflexivity.
    + vm_compute. reflexivity.
    + vm_compute. discriminate.
Defined.

(** X7.  [build_values] looks into the values document before it asks
    [git log]: a missing file gives [FileNotFoundError], a file [yaml.load]
    raises on gives that exception, a document that is not a mapping
    [TypeError], a missing [image] key [KeyError], an [image] that is not
    a mapping [TypeError]; in each case no command has run and no file is
    written. *)
Theorem build_values_errors (B : str) (w : world) (prefix : str)
    (fs : gmap str file) :
  (fs !! values_yaml B = None ->
   build_values B w prefix fs
   = Outcome (inl (FileNotFoundError (values_yaml B))) fs [])
  /\ (forall doc, reads w fs (values_yaml B) doc ->
                  (forall m, doc <> YMap m) ->
                  build_values B w prefix fs = Outcome (inl TypeError) fs [])
  /\ (forall values, reads w fs (values_yaml B) (YMap values) ->
                     assoc_get (py "image") values = None ->
                     build_values B w prefix fs
                     = Outcome (inl (KeyError (py "image"))) fs [])
  /\ (forall values image,
         reads w fs (values_yaml B) (YMap values) ->
         assoc_get (py "image") values = Some image ->
         (forall m, image <> YMap m) ->
         build_values B w prefix fs = Outcome (inl TypeError) fs [])
  /\ (forall f e,
         fs !! values_yaml B = Some f ->
         read w f = inl e ->
         build_values B w prefix fs = Outcome (inl e) fs []).
Proof.
  split; [| split; [| split; [| split]]].
  - intros H. unfold build_values.
    exact (bind_raise _ _ _ _ _ _ (load_missing _ _ _ H)).
  - intros doc H Hdoc. unfold build_values.
    rewrite (bind_run _ _ _ _ _ _ (load_ok _ _ _ _ H)).
    rewrite (bind_lift_raise _ _ _ TypeError); [reflexivity |].
    unfold setitem2. rewrite (getitem_not_mapping doc _ Hdoc). reflexivity.
  - intros values H Himage. unfold build_values.
    rewrite (bind_run _ _ _ _ _ _ (load_ok _ _ _ _ H)).
    rewrite (bind_lift_raise _ _ _ (KeyError (py "image"))); [reflexivity |].
    unfold setitem2, getitem. rewrite Himage. reflexivity.
  - intros values image H Himage Hnot. unfold build_values.
    rewrite (bind_run _ _ _ _ _ _ (load_ok _ _ _ _ H)).
    rewrite (bind_lift_raise _ _ _ TypeError); [reflexivity |].
    unfold setitem2, getitem. rewrite Himage.
    rewrite (setitem_not_mapping image _ _ Hnot). reflexivity.
  - intros f e H Hf. unfold build_values.
    exact (bind_raise _ _ _ _ _ _ (load_raises _ _ _ _ _ H Hf)).
Qed.

Lemma build_values_errors_witness :
  build_values B0 w0 (py "acme/k8s-") ∅
  = Outcome (inl (FileNotFoundError (values_yaml B0))) ∅ []
  /\ build_values B0 w0 (py "acme/k8s-") fs_values_list
     = Outcome (inl TypeError) fs_values_list []
  /\ build_values B0 w0 (py "acme/k8s-") fs_no_image
     = Outcome (inl (KeyError (py "image"))) fs_no_image []
  /\ build_values B0 w0 (py "acme/k8s-") fs_image_string
     = Outcome (inl TypeError) fs_image_string []
  /\ build_values B0 w0 (py "acme/k8s-") (<[values_yaml B0 := Malformed]> fs0)
     = Outcome (inl ParserError) (<[values_yaml B0 := Malformed]> fs0) [].
Proof.
  split; [| split; [| split; [| split]]].
  - apply (build_values_errors B0 w0 (py "acme/k8s-") ∅). reflexivity.
  - destruct (build_values_errors B0 w0 (py "acme/k8s-") fs_values_list)
      as (_ & H & _).
    apply (H (YSeq [YStr (py "image")])).
    + exists (Parsed (YSeq [YStr (py "image")])).
      split; [vm_compute; reflexivity | reflexivity].
    + discriminate.
  - destruct (build_values_errors B0 w0 (py "acme/k8s-") fs_no_image)
      as (_ & _ & H & _).
    apply (H [ (py "replicas", YInt 2) ]).
    + exists (Parsed (YMap [ (py "replicas", YInt 2) ])).
      split; [vm_compute; reflexivity | reflexivity].
    + reflexivity.
  - destruct (build_values_errors B0 w0 (py "acme/k8s-") fs_image_string)
      as (_ & _ & _ & H & _).
    apply (H [ (py "image", YStr (py "binderhub:latest")) ]
             (YStr (py "binderhub:latest"))).
    + exists (Parsed (YMap [ (py "image", YStr (py "binderhub:latest")) ])).
      split; [vm_compute; reflexivity | reflexivity].
    + reflexivity.
    + discriminate.
  - destruct (build_values_errors B0 w0 (py "acme/k8s-")
                (<[values_yaml B0 := Malformed]> fs0))
      as (_ & _ & _ & _ & H).
    apply (H Malformed ParserError).
    + vm_compute. reflexivity.
    + reflexivity.
Defined.



(** X9.  Each of [build_values] and [build_chart] writes its own file and
    no other, and writes nothing when it raises: [build_values] never
    touches [Chart.yaml], [build_chart] never touches [values.yaml]. *)
Theorem manifest_updates_are_local (B : str) (w : world) (prefix : str)
    (fs : gmap str file) :
  (forall p : str, p <> values_yaml B ->
                   files (build_values B w prefix fs) !! p = fs !! p)
  /\ (forall p : str, p <> chart_yaml B ->
                      files (build_chart B w fs) !! p = fs !! p)
  /\ files (build_values B w prefix fs) !! chart_yaml B = fs !! chart_yaml B
  /\ files (build_chart B w fs) !! values_yaml B = fs !! values_yaml B
  /\ (forall e, result (build_values B w prefix fs) = inl e ->
                files (build_values B w prefix fs) = fs)
  /\ (forall e, result (build_chart B w fs) = inl e ->
                files (build_chart B w fs) = fs).
Proof.
  pose proof (values_yaml_not_chart_yaml B) as Hne.
  assert (Hvalues : forall p : str, p <> values_yaml B ->
            files (build_values B w prefix fs) !! p = fs !! p).
  { intros p Hp.
    destruct (result (build_values B w prefix fs)) as [e|u] eqn:E.
    - rewrite (build_values_raise B w prefix fs e E). reflexivity.
    - apply build_values_inr in E as (values & image & t & Ht & Hv & Hi).
      rewrite (build_values_run B w prefix fs values image t Ht Hv Hi).
      cbn [files]. apply lookup_insert_ne. congruence. }
  assert (Hchart : forall p : str, p <> chart_yaml B ->
            files (build_chart B w fs) !! p = fs !! p).
  { intros p Hp.
    destruct (result (build_chart B w fs)) as [e|r] eqn:E.
    - rewrite (build_chart_raise B w fs e E). reflexivity.
    - apply build_chart_inr in E as (chart & old & v & Hlog & Hc & Hver).
      rewrite (build_chart_run B w fs chart old v Hlog Hc Hver).
      cbn [files]. apply lookup_insert_ne. congruence. }
  split; [exact Hvalues |]. split; [exact Hchart |].
  split; [apply Hvalues; congruence |].
  split; [apply Hchart; exact Hne |].
  split.
  - intros e. apply build_values_raise.
  - intros e. apply build_chart_raise.
Qed.

Lemma manifest_updates_are_local_witness :
  files (build_values B0 w0 (py "acme/k8s-") fs0) !! untouched
  = fs0 !! untouched
  /\ files (build_chart B0 w0 fs0) !! untouched = fs0 !! untouched
  /\ files (build_values B0 w0 (py "acme/k8s-") fs_no_image) = fs_no_image
  /\ files (build_chart B0 w0 fs_no_version) = fs_no_version.
Proof.
  split; [| split; [| split]].
  - destruct (manifest_updates_are_local B0 w0 (py "acme/k8s-") fs0)
      as (H & _).
    apply (H untouched). vm_compute. discriminate.
  - destruct (manifest_updates_are_local B0 w0 (py "acme/k8s-") fs0)
      as (_ & H & _).
    apply (H untouched). vm_compute. discriminate.
  - destruct (manifest_updates_are_local B0 w0 (py "acme/k8s-") fs_no_image)
      as (_ & _ & _ & _ & H & _).
    apply (H (KeyError (py "image"))). vm_compute. reflexivity.
  - destruct (manifest_updates_are_local B0 w0 (py "acme/k8s-") fs_no_version)
      as (_ & _ & _ & _ & _ & H).
    apply (H (KeyError (py "version"))). vm_compute. reflexivity.
Defined.

(** X10.  [build_chart] asks [git log] first and reads [Chart.yaml] after:
    when [git log] fails the exception is its [CalledProcessError]; when it
    answers, a missing file gives [FileNotFoundError], a file [yaml.load]
    raises on gives that exception, a document that is not a mapping
    [TypeError], a missing [version] key [KeyError], and a
    version that is not a string [AttributeError].  In each case the one
    command run is [git log] and no file is written. *)
Theorem build_chart_errors (B : str) (w : world) (fs : gmap str file) :
  let c := cmd (git_log_argv ([B] ++ IMAGE_FILES B)) in
  (returncode (w c) <> 0%Z ->
   build_chart B w fs
   = Outcome (inl (CalledProcessError c (returncode (w c)))) fs [Run c])
  /\ (forall v, log_answers w ([B] ++ IMAGE_FILES B) v ->
        (fs !! chart_yaml B = None ->
         build_chart B w fs
         = Outcome (inl (FileNotFoundError (chart_yaml B))) fs [Run c])
        /\ (forall doc, reads w fs (chart_yaml B) doc ->
                        (forall m, doc <> YMap m) ->
                        build_chart B w fs
                        = Outcome (inl TypeError) fs [Run c])
        /\ (forall chart, reads w fs (chart_yaml B) (YMap chart) ->
                          assoc_get (py "version") chart = None ->
                          build_chart B w fs
                          = Outcome (inl (KeyError (py "version"))) fs [Run c])
        /\ (forall chart x, reads w fs (chart_yaml B) (YMap chart) ->
                            assoc_get (py "version") chart = Some x ->
                            (forall s, x <> YStr s) ->
                            build_chart B w fs
                            = Outcome (inl AttributeError) fs [Run c])
        /\ (forall f e, fs !! chart_yaml B = Some f ->
                        read w f = inl e ->
                        build_chart B w fs = Outcome (inl e) fs [Run c])).
Proof.
  intros c. split.
  - intros Hrc. unfold build_chart. apply bind_raise.
    exact (last_git_modified_fail w (Paths ([B] ++ IMAGE_FILES B)) fs Hrc).
  - intros v Hlog.
    pose proof (last_git_modified_ok w (Paths ([B] ++ IMAGE_FILES B)) v fs
                  Hlog) as Hrun.
    split; [| split; [| split; [| split]]].
    + intros H. unfold build_chart.
      rewrite (bind_run _ _ _ _ _ _ Hrun).
      rewrite (bind_raise _ _ _ _ _ _ (load_missing _ _ _ H)). reflexivity.
    + intros doc H Hdoc. unfold build_chart.
      rewrite (bind_run _ _ _ _ _ _ Hrun).
      rewrite (bind_run _ _ _ _ _ _ (load_ok _ _ _ _ H)).
      rewrite (bind_lift_raise _ _ _ TypeError
                 (getitem_not_mapping doc _ Hdoc)).
      reflexivity.
    + intros chart H Hver. unfold build_chart.
      rewrite (bind_run _ _ _ _ _ _ Hrun).
      rewrite (bind_run _ _ _ _ _ _ (load_ok _ _ _ _ H)).
      rewrite (bind_lift_raise _ _ _ (KeyError (py "version")));
        [reflexivity |].
      unfold getitem. rewrite Hver. reflexivity.
    + intros chart x H Hver Hx. unfold build_chart.
      rewrite (bind_run _ _ _ _ _ _ Hrun).
      rewrite (bind_run _ _ _ _ _ _ (load_ok _ _ _ _ H)).
      assert (Hget : getitem (YMap chart) (py "version") = inr x)
        by (unfold getitem; rewrite Hver; reflexivity).
      rewrite !(bind_lift_inr _ _ _ _ Hget).
      rewrite (bind_lift_raise _ _ _ AttributeError
                 (method_split_not_string x _ Hx)).
      reflexivity.
    + intros f e H Hf. unfold build_chart.
      rewrite (bind_run _ _ _ _ _ _ Hrun).
      rewrite (bind_raise _ _ _ _ _ _ (load_raises _ _ _ _ _ H Hf)).
      reflexivity.
Qed.

Lemma build_chart_errors_witness :
  let c := cmd (git_log_argv ([B0] ++ IMAGE_FILES B0)) in
  build_chart B0 w_no_commit fs0
  = Outcome (inl (CalledProcessError c 128)) fs0 [Run c]
  /\ build_chart B0 w0 ∅
     = Outcome (inl (FileNotFoundError (chart_yaml B0))) ∅ [Run c]
  /\ build_chart B0 w0 fs_chart_null
     = Outcome (inl TypeError) fs_chart_null [Run c]
  /\ build_chart B0 w0 fs_no_version
     = Outcome (inl (KeyError (py "version"))) fs_no_version [Run c]
  /\ build_chart B0 w0 fs_version_number
     = Outcome (inl AttributeError) fs_version_number [Run c]
  /\ build_chart B0 w0 (<[chart_yaml B0 := Malformed]> fs0)
     = Outcome (inl ParserError) (<[chart_yaml B0 := Malformed]> fs0) [Run c].
Proof.
  intros c.
  assert (Hlog : log_answers w0 ([B0] ++ IMAGE_FILES B0) (py "def456"))
    by (split; vm_compute; reflexivity).
  split; [| split; [| split; [| split; [| split]]]].
  - apply (build_chart_errors B0 w_no_commit fs0). vm_compute. discriminate.
  - destruct (build_chart_errors B0 w0 ∅) as [_ H].
    destruct (H (py "def456") Hlog) as (H1 & _). apply H1. reflexivity.
  - destruct (build_chart_errors B0 w0 fs_chart_null) as [_ H].
    destruct (H (py "def456") Hlog) as (_ & H2 & _).
    apply (H2 YNull); [| discriminate].
    exists (Parsed YNull). split; [vm_compute; reflexivity | reflexivity].
  - destruct (build_chart_errors B0 w0 fs_no_version) as [_ H].
    destruct (H (py "def456") Hlog) as (_ & _ & H3 & _).
    apply (H3 [ (py "name", YStr (py "binderhub")) ]); [| reflexivity].
    exists (Parsed (YMap [ (py "name", YStr (py "binderhub")) ])).
    split; [vm_compute; reflexivity | reflexivity].
  - destruct (build_chart_errors B0 w0 fs_version_number) as [_ H].
    destruct (H (py "def456") Hlog) as (_ & _ & _ & H4 & _).
    apply (H4 [ (py "name", YStr (py "binderhub")); (py "version", YInt 1) ]
              (YInt 1)); [| reflexivity | discriminate].
    exists (Parsed (YMap [ (py "name", YStr (py "binderhub"));
                           (py "version", YInt 1) ])).
    split; [vm_compute; reflexivity | reflexivity].
  - destruct (build_chart_errors B0 w0 (<[chart_yaml B0 := Malformed]> fs0))
      as [_ H].
    destruct (H (py "def456") Hlog) as (_ & _ & _ & _ & H5).
    apply (H5 Malformed ParserError); [vm_compute; reflexivity | reflexivity].
Defined.

(** X11.  The document [build_chart] hands to [yaml.dump] is the one it
    loaded, changed at [version] only: the keys stay in their order and
    every key but [version] keeps its value.  (How the file reads back is
    ruamel's doing, see C7.) *)
Theorem build_chart_keeps_rest (B : str) (w : world) (fs : gmap str file)
    (chart : list (str * yaml)) (old v : str) :
  log_answers w ([B] ++ IMAGE_FILES B) v ->
  reads w fs (chart_yaml B) (YMap chart) ->
  assoc_get (py "version") chart = Some (YStr old) ->
  exists chart',
    files (build_chart B w fs) !! chart_yaml B = Some (Dumped (YMap chart'))
    /\ List.map fst chart' = List.map fst chart
    /\ (forall k, k <> py "version" -> assoc_get k chart' = assoc_get k chart).
Proof.
  intros Hlog Hfile Hver.
  rewrite (build_chart_run B w fs chart old v Hlog Hfile Hver).
  cbn [files]. eexists.
  split; [apply lookup_insert_eq |].
  split; [exact (assoc_set_keys _ _ _ _ Hver) |].
  intros k Hk. apply assoc_get_set_ne. congruence.
Qed.

Lemma build_chart_keeps_rest_witness :
  exists chart',
    files (build_chart B0 w0 fs0) !! chart_yaml B0
    = Some (Dumped (YMap chart'))
    /\ List.map fst chart' = [py "name"; py "version"]
    /\ (forall k, k <> py "version" ->
                  assoc_get k chart' = assoc_get k chart0).
Proof.
  apply (build_chart_keeps_rest B0 w0 fs0 chart0 (py "1.2.3-abc123")
           (py "def456")).
  - split; vm_compute; reflexivity.
  - exists (Parsed (YMap chart0)).
    split; [vm_compute; reflexivity | reflexivity].
  - reflexivity.
Defined.

(** X12.  [str.split] with a separator of one character, as [build_chart]
    uses it: joining the parts with the separator gives the string back,
    no part holds the separator, and there is at least one part. *)
Theorem split_round_trip (sep : N) (s : str) :
  join_with sep (split sep s) = s
  /\ (forall p, In p (split sep s) -> ~ In sep p)
  /\ split sep s <> [].
Proof.
  split; [apply split_join_with |].
  split; [apply split_parts_no_sep |].
  intros H. pose proof (index0_split sep s) as H0.
  rewrite H in H0. discriminate H0.
Qed.

Lemma split_round_trip_witness :
  split 45 (py "1.2.3-abc-def") = [py "1.2.3"; py "abc"; py "def"]
  /\ ~ In 45 (py "abc").
Proof.
  split; [reflexivity |].
  apply (split_round_trip 45 (py "1.2.3-abc-def")).
  vm_compute. right. left. reflexivity.
Defined.

(** X13.  When the identifier [git log] answers holds no hyphen (as an
    abbreviated commit hash), the version [build_chart] writes splits at
    its hyphens into exactly two parts: what stood before the first hyphen
    of the old version, and the identifier. *)
Theorem stamped_version_shape (B : str) (w : world) (fs : gmap str file)
    (chart : list (str * yaml)) (old v : str) :
  log_answers w ([B] ++ IMAGE_FILES B) v ->
  reads w fs (chart_yaml B) (YMap chart) ->
  assoc_get (py "version") chart = Some (YStr old) ->
  ~ In 45 v ->
  exists chart' new,
    files (build_chart B w fs) !! chart_yaml B = Some (Dumped (YMap chart'))
    /\ assoc_get (py "version") chart' = Some (YStr new)
    /\ split 45 new = [before_first 45 old; v].
Proof.
  intros Hlog Hfile Hver Hv.
  rewrite (build_chart_run B w fs chart old v Hlog Hfile Hver).
  cbn [files]. do 2 eexists.
  split; [apply lookup_insert_eq |].
  split; [apply assoc_get_set_eq |].
  change (before_first 45 old ++ py "-" ++ v)
    with (before_first 45 old ++ 45 :: v).
  rewrite (split_app_sep 45 _ v (before_first_no_sep 45 old)).
  rewrite (split_no_sep 45 v Hv). reflexivity.
Qed.

Lemma stamped_version_shape_witness :
  exists chart' new,
    files (build_chart B0 w0 fs0) !! chart_yaml B0
    = Some (Dumped (YMap chart'))
    /\ assoc_get (py "version") chart' = Some (YStr new)
    /\ split 45 new = [py "1.2.3"; py "def456"].
Proof.
  apply (stamped_version_shape B0 w0 fs0 chart0 (py "1.2.3-abc123")
           (py "def456")).
  - split; vm_compute; reflexivity.
  - exists (Parsed (YMap chart0)).
    split; [vm_compute; reflexivity | reflexivity].
  - reflexivity.
  - vm_compute. intuition discriminate.
Defined.

(** X14.  [build_values] and [build_chart] do not depend on each other:
    when they succeed one after the other, they succeed in the other order
    too and leave the same files. *)
Theorem stamps_commute (B : str) (w : world) (prefix : str)
    (fs : gmap str file) (r : yaml) :
  result (stamp B w prefix fs) = inr r ->
  (build_chart B w ;;; build_values B w prefix) fs
  = Outcome (inr tt) (files (stamp B w prefix fs))
      [Run (cmd (git_log_argv ([B] ++ IMAGE_FILES B)));
       Run (cmd (git_log_argv (IMAGE_FILES B)))].
Proof.
  unfold stamp. intros H.
  apply bind_inr in H as (u & Hvalues & Hchart).
  pose proof (values_yaml_not_chart_yaml B) as Hne.
  apply build_values_inr in Hvalues as (values & image & t & Ht & Hv & Hi).
  pose proof (build_values_run B w prefix fs values image t Ht Hv Hi) as Hrun.
  rewrite Hrun in Hchart. cbn [files] in Hchart.
  apply build_chart_inr in Hchart as (chart & old & v & Hlog & Hc & Hver).
  rewrite (bind_run _ _ _ _ _ _ Hrun).
  rewrite (build_chart_run B w _ chart old v Hlog Hc Hver). cbn [files].
  apply reads_insert_ne in Hc; [| exact Hne].
  rewrite (bind_run _ _ _ _ _ _
             (build_chart_run B w fs chart old v Hlog Hc Hver)).
  assert (Hv' : reads w
                  (<[chart_yaml B :=
                       Dumped (YMap (assoc_set (py "version")
                                       (YStr (before_first 45 old
                                              ++ py "-" ++ v))
                                       chart))]> fs)
                  (values_yaml B) (YMap values)).
  { apply reads_insert_ne; [congruence | exact Hv]. }
  rewrite (build_values_run B w prefix _ values image t Ht Hv' Hi).
  cbn [result files trace].
  rewrite (insert_insert_ne fs (values_yaml B) (chart_yaml B)) by exact Hne.
  reflexivity.
Qed.

Lemma stamps_commute_witness :
  (build_chart B0 w0 ;;; build_values B0 w0 (py "acme/k8s-")) fs0
  = Outcome (inr tt) (files (stamp B0 w0 (py "acme/k8s-") fs0))
      [Run (cmd (git_log_argv ([B0] ++ IMAGE_FILES B0)));
       Run (cmd (git_log_argv (IMAGE_FILES B0)))].
Proof.
  apply (stamps_commute B0 w0 (py "acme/k8s-") fs0
           (YStr (py "1.2.3-abc123"))).
  vm_compute. reflexivity.
Defined.

(** X15.  [publish_pages] runs its commands in order and stops at the first
    that fails: when [git log] fails nothing is cloned; when [git log]
    answers [v] and every command succeeds, all nine commands have run, the
    commit message carrying [v]; when one fails, the commands after it have
    not run and the exception is its [CalledProcessError].  No file is
    written. *)
Theorem publish_pages_runs (B : str) (w : world) (fs : gmap str file) :
  let q := cmd (git_log_argv [py "."]) in
  (returncode (w q) <> 0%Z ->
   publish_pages B w fs
   = Outcome (inl (CalledProcessError q (returncode (w q)))) fs [Run q])
  /\ (forall v, log_answers w [py "."] v ->
        ((forall c, In c (publish_commands B v) -> returncode (w c) = 0%Z) ->
         publish_pages B w fs
         = Outcome (inr tt) fs (Run q :: List.map Run (publish_commands B v)))
        /\ (forall pre c post,
               publish_commands B v = pre ++ c :: post ->
               (forall c', In c' pre -> returncode (w c') = 0%Z) ->
               returncode (w c) <> 0%Z ->
               publish_pages B w fs
               = Outcome (inl (CalledProcessError c (returncode (w c)))) fs
                   (Run q :: List.map Run (pre ++ [c])))).
Proof.
  intros q. split.
  - intros Hrc. unfold publish_pages. apply bind_raise.
    exact (last_git_modified_fail w (OnePath (py ".")) fs Hrc).
  - intros v Hlog.
    pose proof (last_git_modified_ok w (OnePath (py ".")) v fs Hlog) as Hrun.
    split.
    + intros Hok. unfold publish_pages.
      rewrite (bind_run _ _ _ _ _ _ Hrun).
      rewrite (check_calls_ok w _ fs Hok). reflexivity.
    + intros pre c post Hsplit Hpre Hc. unfold publish_pages.
      rewrite (bind_run _ _ _ _ _ _ Hrun).
      rewrite Hsplit, (check_calls_fail w pre c post fs Hpre Hc).
      reflexivity.
Qed.

Lemma publish_pages_runs_witness :
  let q := cmd (git_log_argv [py "."]) in
  publish_pages B0 w_no_commit fs0
  = Outcome (inl (CalledProcessError q 128)) fs0 [Run q]
  /\ publish_pages B0 w_all_fine fs0
     = Outcome (inr tt) fs0
         (Run q :: List.map Run (publish_commands B0 (py "abc1234")))
  /\ publish_pages B0 w_nothing_to_commit fs0
     = Outcome
         (inl (CalledProcessError
                 (Command [py "git"; py "commit"; py "-m";
                           py "[binderhub] Automatic update for commit abc1234"]
                    (Some (py "gh-pages")) None) 1))
         fs0
         (Run q
          :: List.map Run
               (firstn 7 (publish_commands B0 (py "abc1234"))
                ++ [Command [py "git"; py "commit"; py "-m";
                             py "[binderhub] Automatic update for commit abc1234"]
                      (Some (py "gh-pages")) None])).
Proof.
  intros q. split; [| split].
  - apply (publish_pages_runs B0 w_no_commit fs0). vm_compute. discriminate.
  - destruct (publish_pages_runs B0 w_all_fine fs0) as [_ H].
    destruct (H (py "abc1234")) as [Hok _];
      [split; vm_compute; reflexivity |].
    apply Hok. intros c _. reflexivity.
  - destruct (publish_pages_runs B0 w_nothing_to_commit fs0) as [_ H].
    destruct (H (py "abc1234")) as [_ Hfail];
      [split; vm_compute; reflexivity |].
    apply (Hfail (firstn 7 (publish_commands B0 (py "abc1234")))
                 (Command [py "git"; py "commit"; py "-m";
                           py "[binderhub] Automatic update for commit abc1234"]
                    (Some (py "gh-pages")) None)
                 (skipn 8 (publish_commands B0 (py "abc1234")))).
    + reflexivity.
    + cbn [firstn publish_commands]. intros c' Hc'.
      repeat (destruct Hc' as [<- | Hc']; [vm_compute; reflexivity |]).
      destruct Hc'.
    + vm_compute. discriminate.
Defined.

(** X16.  [main] stops at the first stage that raises and undoes nothing:
    when [build_images] raises, no manifest is written; when [build_values]
    raises, none either; when [build_chart] raises, [values.yaml] stays as
    [build_values] wrote it.  In each case the exception is that of the
    stage and the publisher has not run. *)
Theorem main_stops_at_failure (B : str) (w : world) (prefix : str)
    (range : option str) (pushing : bool) (fs : gmap str file) (e : exn) :
  let a := Args prefix (Some (py "build")) range pushing in
  let images := build_images B w prefix [py "binderhub"] range pushing fs in
  let values := build_values B w prefix fs in
  let chart := build_chart B w (files values) in
  (result images = inl e ->
   main B w a fs = Outcome (inl e) fs (trace images))
  /\ (result images = inr tt -> result values = inl e ->
      main B w a fs = Outcome (inl e) fs (trace images ++ trace values))
  /\ (result images = inr tt -> result values = inr tt ->
      result chart = inl e ->
      main B w a fs
      = Outcome (inl e) (files values)
          (trace images ++ trace values ++ trace chart)).
Proof.
  intros a images values chart. subst a.
  assert (Himages : files images = fs) by apply build_images_files.
  split; [| split].
  - intros H. rewrite main_unfold. apply bind_raise.
    apply outcome_raise in H. rewrite Himages in H. exact H.
  - intros Hi Hv. rewrite main_unfold.
    apply outcome_return in Hi. rewrite Himages in Hi.
    rewrite (bind_run _ _ _ _ _ _ Hi).
    pose proof (build_values_raise B w prefix fs e Hv) as Hfiles.
    apply outcome_raise in Hv. fold values in Hfiles. rewrite Hfiles in Hv.
    rewrite (bind_raise _ _ _ _ _ _ Hv). reflexivity.
  - intros Hi Hv Hc. rewrite main_unfold.
    apply outcome_return in Hi. rewrite Himages in Hi.
    rewrite (bind_run _ _ _ _ _ _ Hi).
    apply outcome_return in Hv.
    rewrite (bind_run _ _ _ _ _ _ Hv).
    pose proof (build_chart_raise B w (files values) e Hc) as Hfiles.
    apply outcome_raise in Hc. fold chart in Hfiles. rewrite Hfiles in Hc.
    rewrite (bind_raise _ _ _ _ _ _ Hc). reflexivity.
Qed.

Lemma main_stops_at_failure_witness :
  let a := Args (py "acme/k8s-") (Some (py "build")) None true in
  main B0 w_build_fails a fs0
  = Outcome
      (inl (CalledProcessError
              (build_command B0 (py "acme/k8s-") (py "abc1234")
                 (py "binderhub")) 1))
      fs0
      (trace (build_images B0 w_build_fails (py "acme/k8s-")
                [py "binderhub"] None true fs0))
  /\ main B0 w0 a fs_no_image
     = Outcome (inl (KeyError (py "image"))) fs_no_image
         (trace (build_images B0 w0 (py "acme/k8s-") [py "binderhub"] None
                   true fs_no_image)
          ++ trace (build_values B0 w0 (py "acme/k8s-") fs_no_image))
  /\ main B0 w0 a fs_no_version
     = Outcome (inl (KeyError (py "version")))
         (files (build_values B0 w0 (py "acme/k8s-") fs_no_version))
         (trace (build_images B0 w0 (py "acme/k8s-") [py "binderhub"] None
                   true fs_no_version)
          ++ trace (build_values B0 w0 (py "acme/k8s-") fs_no_version)
          ++ trace (build_chart B0 w0
                      (files (build_values B0 w0 (py "acme/k8s-")
                                fs_no_version)))).
Proof.
  intros a. split; [| split].
  - apply (main_stops_at_failure B0 w_build_fails (py "acme/k8s-") None true
             fs0).
    vm_compute. reflexivity.
  - apply (main_stops_at_failure B0 w0 (py "acme/k8s-") None true
             fs_no_image).
    + vm_compute. reflexivity.
    + vm_compute. reflexivity.
  - apply (main_stops_at_failure B0 w0 (py "acme/k8s-") None true
             fs_no_version).
    + vm_compute. reflexivity.
    + vm_compute. reflexivity.
    + vm_compute. reflexivity.
Defined.

(** X17.  [main] asks the first question of [publish_pages] exactly when
    [--push] is given and the three stages before it (images, values,
    chart) have all returned normally. *)
Theorem publish_exactly_when (B : str) (w : world) (prefix : str)
    (range : option str) (pushing : bool) (fs : gmap str file) :
  In (Run (cmd (git_log_argv [py "."])))
     (trace (main B w (Args prefix (Some (py "build")) range pushing) fs))
  <-> pushing = true
      /\ exists r, result (build_stage B w prefix range pushing fs) = inr r.
Proof.
  rewrite main_build.
  pose proof (build_stage_trace B w prefix range pushing fs) as Hstage.
  rewrite List.Forall_forall in Hstage.
  pose proof (publish_question_not_stage B) as Hnot.
  unfold bind.
  destruct (result (build_stage B w prefix range pushing fs)) as [e|r] eqn:E;
    cbn [trace].
  - split.
    + intros Hin. exfalso. exact (Hnot (Hstage _ Hin)).
    + intros [_ [r Hr]]. discriminate Hr.
  - destruct pushing.
    + split; [intros _; split; eauto |].
      intros _. apply in_or_app. right.
      destruct (publish_pages_trace_head B w
                  (files (build_stage B w prefix range true fs)))
        as [rest ->].
      left. reflexivity.
    + split.
      * intros Hin. apply in_app_or in Hin as [Hin | []].
        exfalso. exact (Hnot (Hstage _ Hin)).
      * intros [H _]. discriminate H.
Qed.

Lemma publish_exactly_when_witness :
  In (Run (cmd (git_log_argv [py "."])))
     (trace (main B0 w_all_fine
               (Args (py "acme/k8s-") (Some (py "build")) None true) fs0))
  /\ ~ In (Run (cmd (git_log_argv [py "."])))
       (trace (main B0 w_build_fails
                 (Args (py "acme/k8s-") (Some (py "build")) None true) fs0)).
Proof.
  split.
  - apply (publish_exactly_when B0 w_all_fine (py "acme/k8s-") None true fs0).
    split; [reflexivity |]. eexists. vm_compute. reflexivity.
  - intros H.
    apply (publish_exactly_when B0 w_build_fails (py "acme/k8s-") None true
             fs0) in H as [_ [r Hr]].
    vm_compute in Hr. discriminate Hr.
Defined.

(** X18.  A whole run of [build] whose image is not skipped and whose
    commands succeed: the image is built (and pushed with [--push]) with
    the tag [prefix+"binderhub:"+t], where [t] is what [git log] answers on
    the image files; then the same [t] is written as [image.tag], and the
    chart version is stamped; with [--push] the publisher follows, without
    it the run ends normally there. *)
Theorem main_builds_and_stamps (B : str) (w : world) (prefix : str)
    (range : option str) (pushing : bool) (fs : gmap str file)
    (values image chart : list (str * yaml)) (old t v : str) :
  not_skipped B w range ->
  log_answers w (IMAGE_FILES B) t ->
  log_answers w ([B] ++ IMAGE_FILES B) v ->
  returncode (w (build_command B prefix t (py "binderhub"))) = 0%Z ->
  (pushing = true ->
   returncode (w (push_command prefix t (py "binderhub"))) = 0%Z) ->
  reads w fs (values_yaml B) (YMap values) ->
  assoc_get (py "image") values = Some (YMap image) ->
  reads w fs (chart_yaml B) (YMap chart) ->
  assoc_get (py "version") chart = Some (YStr old) ->
  let o := main B w (Args prefix (Some (py "build")) range pushing) fs in
  trace o
  = image_events B prefix t range pushing (py "binderhub")
    ++ [Run (cmd (git_log_argv (IMAGE_FILES B)));
        Run (cmd (git_log_argv ([B] ++ IMAGE_FILES B)))]
    ++ (if pushing then trace (publish_pages B w (files o)) else [])
  /\ files o
     = <[chart_yaml B :=
           Dumped (YMap (assoc_set (py "version")
                           (YStr (before_first 45 old ++ py "-" ++ v))
                           chart))]>
         (<[values_yaml B :=
              Dumped
                (YMap (assoc_set (py "image")
                         (YMap (assoc_set (py "tag") (YStr t)
                                  (assoc_set (py "name")
                                     (YStr (prefix ++ py "binderhub"))
                                     image)))
                         values))]> fs)
  /\ (pushing = false -> result o = inr tt).
Proof.
  intros Hgo Ht Hv Hbuild Hpush Hvalues Himage Hchart Hver o.
  pose proof (values_yaml_not_chart_yaml B) as Hne.
  set (fs1 := <[values_yaml B :=
                  Dumped
                    (YMap (assoc_set (py "image")
                             (YMap (assoc_set (py "tag") (YStr t)
                                      (assoc_set (py "name")
                                         (YStr (prefix ++ NAME)) image)))
                             values))]> fs).
  set (fs2 := <[chart_yaml B :=
                  Dumped (YMap (assoc_set (py "version")
                                  (YStr (before_first 45 old ++ py "-" ++ v))
                                  chart))]> fs1).
  assert (Hchart1 : reads w fs1 (chart_yaml B) (YMap chart)).
  { unfold fs1. apply reads_insert_ne; [exact Hne | exact Hchart]. }
  assert (Himages :
            build_images B w prefix [py "binderhub"] range pushing fs
            = Outcome (inr tt) fs
                (flat_map (image_events B prefix t range pushing)
                   [py "binderhub"])).
  { cbn [build_images flat_map].
    rewrite (bind_run _ _ _ _ _ _
               (build_image_ok B w prefix t range pushing (py "binderhub") fs
                  Hgo Ht Hbuild Hpush)).
    reflexivity. }
  assert (Ho : o = let o' := (if pushing then publish_pages B w else ret tt)
                               fs2
                   in Outcome (result o') (files o')
                        (flat_map (image_events B prefix t range pushing)
                           [py "binderhub"]
                         ++ [Run (cmd (git_log_argv (IMAGE_FILES B)))]
                         ++ [Run (cmd (git_log_argv ([B] ++ IMAGE_FILES B)))]
                         ++ trace o')).
  { subst o. rewrite main_unfold.
    rewrite (bind_run _ _ _ _ _ _ Himages).
    rewrite (bind_run _ _ _ _ _ _
               (build_values_run B w prefix fs values image t Ht
                  Hvalues Himage)).
    fold fs1.
    rewrite (bind_run _ _ _ _ _ _
               (build_chart_run B w fs1 chart old v Hv Hchart1 Hver)).
    fold fs2. reflexivity. }
  assert (Hfiles : files o = fs2).
  { rewrite Ho. cbn [files]. destruct pushing;
      [apply publish_pages_files | reflexivity]. }
  rewrite Hfiles. split; [| split].
  - rewrite Ho. cbn [trace flat_map]. rewrite app_nil_r.
    destruct pushing; reflexivity.
  - reflexivity.
  - intros ->. rewrite Ho. reflexivity.
Qed.

Lemma main_builds_and_stamps_witness :
  let o := main B0 w0 (Args (py "acme/k8s-") (Some (py "build")) None false)
             fs0 in
  trace o
  = [Run (cmd (git_log_argv (IMAGE_FILES B0)));
     Run (cmd [py "docker"; py "build"; py "-t";
               py "acme/k8s-binderhub:abc1234";
               py "--build-arg"; py "BINDERHUB_VERSION=abc1234";
               py "/repo/helm-chart/images/binderhub"])]
    ++ [Run (cmd (git_log_argv (IMAGE_FILES B0)));
        Run (cmd (git_log_argv ([B0] ++ IMAGE_FILES B0)))]
    ++ []
  /\ files o
     = <[chart_yaml B0 :=
           Dumped (YMap [ (py "name", YStr (py "binderhub"));
                          (py "version", YStr (py "1.2.3-def456")) ])]>
         (<[values_yaml B0 :=
              Dumped
                (YMap [ (py "replicas", YInt 2);
                        (py "image",
                         YMap [ (py "name", YStr (py "acme/k8s-binderhub"));
                                (py "tag", YStr (py "abc1234")) ]) ])]> fs0)
  /\ (false = false -> result o = inr tt).
Proof.
  apply (main_builds_and_stamps B0 w0 (py "acme/k8s-") None false fs0
           values0 image0 chart0 (py "1.2.3-abc123") (py "abc1234")
           (py "def456")).
  - exact I.
  - split; vm_compute; reflexivity.
  - split; vm_compute; reflexivity.
  - vm_compute. reflexivity.
  - discriminate.
  - exists (Parsed (YMap values0)).
    split; [vm_compute; reflexivity | reflexivity].
  - reflexivity.
  - exists (Parsed (YMap chart0)).
    split; [vm_compute; reflexivity | reflexivity].
  - reflexivity.
Defined.

(** X19.  [build_images] and [publish_pages] write no file themselves,
    whatever the tools answer and whether they return or raise. *)
Theorem builder_and_publisher_write_nothing (B : str) (w : world)
    (prefix : str) (images : list str) (range : option str) (push : bool)
    (fs : gmap str file) :
  files (build_images B w prefix images range push fs) = fs
  /\ files (publish_pages B w fs) = fs.
Proof.
  split; [apply build_images_files | apply publish_pages_files].
Qed.
